(** * flaskext.filekit: files and their derivative versions

    A shallow embedding of [flaskext/filekit.py].  Python objects become
    records, the file system and the record of processor invocations become
    an explicit state threaded through a state-and-exception monad, and the
    Flask-Uploads [UploadSet] (an external collaborator) is an interface. *)

From Stdlib Require Import ZArith String Ascii List PrimFloat FloatOps SpecFloat.
From stdpp Require Import base gmap strings list pretty.

Local Open Scope string_scope.
Local Open Scope list_scope.
Local Open Scope Z_scope.

(** ** Exceptions and results *)

Inductive exn : Type :=
| FileNotFound
| IOError
| IndexError
| ValueError
| TypeError
| ZeroDivisionError
| OverflowError
| ProcessorError
| UploadNotAllowed.

Inductive result (A : Type) : Type :=
| Ok (a : A)
| Raise (e : exn).

Arguments Ok {A} a.
Arguments Raise {A} e.

#[global] Instance result_ret : MRet result := fun _ a => Ok a.
#[global] Instance result_bind : MBind result :=
  fun _ _ k r => match r with Ok a => k a | Raise e => Raise e end.

Definition is_ok {A} (r : result A) : bool :=
  match r with Ok _ => true | Raise _ => false end.

(** ** Python string helpers *)

(** [c in s] for a one-character [c]. *)
Fixpoint contains (c : ascii) (s : string) : bool :=
  match s with
  | EmptyString => false
  | String d s' => if Ascii.eqb d c then true else contains c s'
  end.

(** Split at the last occurrence of [sep], if there is one. *)
Fixpoint rpartition (sep : ascii) (s : string) : option (string * string) :=
  match s with
  | EmptyString => None
  | String d s' =>
      match rpartition sep s' with
      | Some (a, b) => Some (String d a, b)
      | None => if Ascii.eqb d sep then Some (EmptyString, s') else None
      end
  end.

(** [s.rsplit(sep, 1)]: one or two pieces. *)
Definition rsplit1 (sep : ascii) (s : string) : list string :=
  match rpartition sep s with
  | Some (a, b) => [a; b]
  | None => [s]
  end.

(** ['.'.join((a, b))]. *)
Definition dot_join (a b : string) : string := a +:+ "." +:+ b.

Definition startswith (c : ascii) (s : string) : bool :=
  match s with
  | String d _ => Ascii.eqb d c
  | EmptyString => false
  end.

Fixpoint endswith (c : ascii) (s : string) : bool :=
  match s with
  | EmptyString => false
  | String d EmptyString => Ascii.eqb d c
  | String _ s' => endswith c s'
  end.

(** [os.path.join(a, b)] of [posixpath], for two components. *)
Definition os_path_join (a b : string) : string :=
  if startswith "/" b then b
  else if (String.eqb a "" || endswith "/" a)%bool then a +:+ b
  else a +:+ "/" +:+ b.

Definition lower_ascii (c : ascii) : ascii :=
  let n := nat_of_ascii c in
  if ((65 <=? n)%nat && (n <=? 90)%nat)%bool then ascii_of_nat (n + 32) else c.

(** [s.lower()] on a byte string. *)
Fixpoint lower (s : string) : string :=
  match s with
  | EmptyString => EmptyString
  | String c s' => String (lower_ascii c) (lower s')
  end.

(** Truthiness of an optional string: [None] and [''] are false. *)
Definition truthy (o : option string) : bool :=
  match o with
  | Some s => negb (String.eqb s "")
  | None => false
  end.

(** ** Files, processors and fields *)

(** An open file: its [name] attribute, if any, and its bytes.  Every
    processor call rewinds its result ([fp.seek(0)] in
    [Processor.__call__]), so a file pointer is always read from its
    start and no position is kept. *)
Record pyfile : Type := {
  f_name : option string;
  f_data : list Byte.byte
}.

(** A processor: a callable on file pointers.  [proc_ext] is [None] when the
    object has no [ext] attribute ([hasattr] is false) and [Some v] when it
    has one with value [v] (which may itself be Python's [None]).
    [proc_id] identifies the processor in the record of invocations. *)
Record Processor : Type := {
  proc_id : nat;
  proc_ext : option (option string);
  process : pyfile -> result pyfile
}.

Record Field : Type := {
  processors : list Processor;
  ext : option string;
  pre_cache : bool
}.

(** [Field.__init__]: stores its arguments, checks nothing. *)
Definition Field_init (processors : list Processor) (ext : option string)
    (pre_cache : bool) : result Field :=
  Ok {| processors := processors; ext := ext; pre_cache := pre_cache |}.

(** [Field.extension].  [self.processors[-1]] raises [IndexError] on an
    empty list, and is only evaluated when [self.ext is None]. *)
Definition Field_extension (f : Field) : result (option string) :=
  match ext f with
  | None =>
      match last (processors f) with
      | None => Raise IndexError
      | Some p =>
          match proc_ext p with
          | Some e => Ok e
          | None => Ok (ext f)
          end
      end
  | Some _ => Ok (ext f)
  end.

(** ** The storage backend (Flask-Uploads) and the state *)

(** A [werkzeug.FileStorage]: a stream and the filename it carries. *)
Record FileStorage : Type := {
  stream : list Byte.byte;
  fs_filename : option string
}.

(** [FileStorage(stream, filename=filename)]: without a filename the
    stream's [name] attribute is taken. *)
Definition FileStorage_new (fp : pyfile) (filename : option string) : FileStorage :=
  {| stream := f_data fp;
     fs_filename := match filename with Some n => Some n | None => f_name fp end |}.

(** The interface of [flaskext.uploads.UploadSet] the module calls:
    [path], [url] and [save(storage, folder=..., name=...)], the last one
    acting on the file system and returning the stored name. *)
Record UploadSet : Type := {
  uset_path : string -> string;
  uset_url : string -> string;
  uset_save : FileStorage -> option string -> option string ->
              gmap string (list Byte.byte) ->
              gmap string (list Byte.byte) * result string
}.

(** [UploadSet(name, DEFAULTS)] under the application's configuration. *)
Class Uploads : Type := UploadSet_new : string -> UploadSet.

(** The state: the files on disk by absolute path, and the identifiers of
    the processors invoked so far, oldest first. *)
Record State : Type := {
  fs : gmap string (list Byte.byte);
  calls : list nat
}.

Definition M (A : Type) : Type := State -> State * result A.

#[global] Instance M_ret : MRet M := fun _ a s => (s, Ok a).
#[global] Instance M_bind : MBind M :=
  fun _ _ k m s =>
    match m s with
    | (s', Ok a) => k a s'
    | (s', Raise e) => (s', Raise e)
    end.

Definition lift {A} (r : result A) : M A := fun s => (s, r).

(** Which paths are directories, given the files on disk.  The state
    keeps the bytes of the files only; the directories around them belong
    to the disk. *)
Class Disk : Type :=
  is_directory : gmap string (list Byte.byte) -> string -> bool.

(** [os.path.exists(p)]: true of a file and of a directory. *)
Definition os_path_exists `{D : Disk} (p : string) : M bool :=
  fun s =>
    (s, Ok (bool_decide (is_Some (fs s !! p)) || is_directory (fs s) p)).

(** [open(p)] for reading. *)
Definition py_open (p : string) : M pyfile :=
  fun s =>
    match fs s !! p with
    | Some d => (s, Ok {| f_name := Some p; f_data := d |})
    | None => (s, Raise IOError)
    end.

Definition UploadSet_save (u : UploadSet) (st : FileStorage)
    (folder name : option string) : M string :=
  fun s =>
    let '(fs', r) := uset_save u st folder name (fs s) in
    ({| fs := fs'; calls := calls s |}, r).

(** [Processor.__call__]: run [process], rewind, return. *)
Definition Processor_call (p : Processor) (fp : pyfile) : M pyfile :=
  fun s => ({| fs := fs s; calls := calls s ++ [proc_id p] |}, process p fp).

(** [for processor in ps: fp = processor(fp)]. *)
Fixpoint run_processors (ps : list Processor) (fp : pyfile) : M pyfile :=
  match ps with
  | [] => mret fp
  | p :: ps' => fp' ← Processor_call p fp; run_processors ps' fp'
  end.

(** ** Kits and bound fields *)

(** A [FileKit] subclass as the metaclass leaves it. *)
Record FileKitClass : Type := {
  name : string;
  fields : gmap string Field
}.

(** A [FileKit] instance.  Its bound fields are the attributes set in
    [__init__], one per entry of [fields]; see [getattr_field].  Labels are
    taken not to shadow an attribute of [FileKit] itself ([filename],
    [path], [url], [process], ...). *)
Record FileKit : Type := {
  kit : FileKitClass;
  filename : string
}.

Record BoundField : Type := {
  folder : string;
  _field : Field;
  fkit : FileKit
}.

Section Filekit.
Context `{U : Uploads} `{D : Disk}.

Definition get_upload_set (cls : FileKitClass) : UploadSet :=
  UploadSet_new (name cls).

(** [FileKit.path] and [FileKit.url]. *)
Definition FileKit_path (k : FileKit) : string :=
  uset_path (get_upload_set (kit k)) (filename k).


(** [BoundField.uset], set in [BoundField.__init__]. *)
Definition uset (bf : BoundField) : UploadSet := get_upload_set (kit (fkit bf)).

(** [BoundField.get_filename].  Unpacking the result of [rsplit] into two
    names raises [ValueError] unless it has exactly two pieces; the
    extension of the field replaces the one of the source when it is
    true as a condition. *)
Definition BoundField_get_filename (bf : BoundField) : result string :=
  match rsplit1 "." (filename (fkit bf)) with
  | [stem; src_ext] =>
      e ← Field_extension (_field bf);
      if truthy e then
        e' ← Field_extension (_field bf);
        match e' with
        | Some x => mret (dot_join stem x)
        | None => Raise TypeError
        end
      else mret (dot_join stem src_ext)
  | _ => Raise ValueError
  end.

(** [BoundField.path]. *)
Definition BoundField_path (bf : BoundField) : result string :=
  fname ← BoundField_get_filename bf;
  mret (uset_path (uset bf) (os_path_join (folder bf) fname)).

(** [BoundField.save]. *)
Definition BoundField_save (bf : BoundField) : M unit :=
  fp ← py_open (FileKit_path (fkit bf));
  fp ← run_processors (processors (_field bf)) fp;
  fname ← lift (BoundField_get_filename bf);
  _ ← UploadSet_save (uset bf) (FileStorage_new fp None) (Some (folder bf)) (Some fname);
  mret tt.

(** [BoundField.url]. *)
Definition BoundField_url (bf : BoundField) : M string :=
  p ← lift (BoundField_path bf);
  _ ← (os_path_exists p ≫= λ present : bool,
         if present then mret tt else BoundField_save bf);
  fname ← lift (BoundField_get_filename bf);
  mret (uset_url (uset bf) (os_path_join (folder bf) fname)).

(** [getattr(self, label)] for a declared label: the bound field that
    [__init__] attached under that name. *)
Definition getattr_field (k : FileKit) (label : string) (f : Field) : BoundField :=
  {| folder := label; _field := f; fkit := k |}.

(** [FileKit.__init__]. *)
Definition FileKit_init (cls : FileKitClass) (filename : string) : M FileKit :=
  let self := {| kit := cls; filename := filename |} in
  os_path_exists (FileKit_path self) ≫= λ present : bool,
    if present then mret self else lift (Raise FileNotFound).

(** The loop of [FileKit.process] over the labels of [self.fields]. *)
Fixpoint process_fields (k : FileKit) (force : bool)
    (l : list (string * Field)) : M unit :=
  match l with
  | [] => mret tt
  | (label, f) :: l' =>
      let field := getattr_field k label f in
      _ ← (if (pre_cache (_field field) || force)%bool
           then BoundField_save field else mret tt);
      process_fields k force l'
  end.

(** [FileKit.process]. *)
Definition FileKit_process (k : FileKit) (force : bool) : M unit :=
  process_fields k force (map_to_list (fields (kit k))).

(** What [FileKit.save] receives: a [FileStorage] or another file pointer. *)
Inductive upload : Type :=
| Storage (st : FileStorage)
| Stream (fp : pyfile).

(** [FileKit.save]. *)
Definition FileKit_save (cls : FileKitClass) (storage : upload)
    (filename : option string) : M FileKit :=
  let storage :=
    match storage with
    | Storage st => st
    | Stream fp => FileStorage_new fp filename
    end in
  filename ← UploadSet_save (get_upload_set cls) storage None filename;
  instance ← FileKit_init cls filename;
  _ ← FileKit_process instance false;
  mret instance.

(** The loop of [FileKit.to_dict]. *)
Fixpoint to_dict_fields (k : FileKit) (l : list (string * Field))
    (acc : gmap string string) : M (gmap string string) :=
  match l with
  | [] => mret acc
  | (label, f) :: l' =>
      u ← BoundField_url (getattr_field k label f);
      to_dict_fields k l' (<[label := u]> acc)
  end.

(** [FileKit.to_dict]. *)
Definition FileKit_to_dict (k : FileKit) : M (gmap string string) :=
  to_dict_fields k (map_to_list (fields (kit k))) ∅.

End Filekit.

(** ** The metaclass *)

(** A value bound in a class body: a [Field] instance or something else,
    of which only a string (for [name]) is ever looked at. *)
Inductive attr : Type :=
| AField (f : Field)
| AValue (s : string).

(** The namespace a class body leaves: its assignments in order, a later
    one replacing an earlier one of the same name. *)
Definition class_namespace (body : list (string * attr)) : gmap string attr :=
  foldl (λ m kv, <[kv.1 := kv.2]> m) ∅ body.

Definition as_field (a : attr) : option Field :=
  match a with AField f => Some f | AValue _ => None end.

(** [DeclarativeFieldsMetaclass.__new__]: [attrs['fields']] is reset, every
    [Field] is moved from [attrs] into it, and [name] defaults to the
    lowercased class name. *)
Definition DeclarativeFieldsMetaclass_new (clsname : string)
    (attrs : gmap string attr) : result FileKitClass :=
  let attrs := delete "fields" attrs in
  let fields := omap as_field attrs in
  let attrs := filter (λ kv, as_field kv.2 = None) attrs in
  Ok {| name := match attrs !! "name" with
                | Some (AValue s) => s
                | _ => lower clsname
                end;
        fields := fields |}.

(** A class statement: run the body, then the metaclass. *)
Definition define_kit (clsname : string) (body : list (string * attr)) :
    result FileKitClass :=
  DeclarativeFieldsMetaclass_new clsname (class_namespace body).

(** ** The resize processor, on decoded images *)

(** A PIL image, as far as [Resize.process] looks at it. *)
Record Image : Type := {
  img_mode : string;
  img_size : Z * Z
}.

(** [img.convert(mode)], [img.resize(size, ...)] and [img.crop(box)]: the
    first keeps the size, the second takes the requested one, the third
    the extent of the box. *)
Definition convert (m : string) (img : Image) : Image :=
  {| img_mode := m; img_size := img_size img |}.

Definition resize (sz : Z * Z) (img : Image) : Image :=
  {| img_mode := img_mode img; img_size := sz |}.

Definition crop_box (box : Z * Z * Z * Z) (img : Image) : Image :=
  let '(x0, y0, x1, y1) := box in
  {| img_mode := img_mode img; img_size := (x1 - x0, y1 - y0) |}.

(** The temporary file [img_to_fobj] returns: the image it encodes, the
    format and the quality. *)
Record Encoded : Type := {
  enc_image : Image;
  enc_format : string;
  enc_quality : Z
}.

Record Resize : Type := {
  width : option Z;
  height : option Z;
  crop : bool;
  upscale : bool;
  quality : Z
}.

(** The class attributes [Resize.format] and [Resize.ext]. *)
Definition Resize_format : string := "JPEG".
Definition Resize_ext : string := "jpg".

(** Python floats are IEEE 754 doubles. [py_float] is [float(n)] on an
    integer (or [None]), correctly rounded. *)
Definition float_of_Z (z : Z) : float :=
  SF2Prim (binary_normalize prec emax z 0 false).

Definition py_float (n : option Z) : result float :=
  match n with
  | None => Raise TypeError
  | Some z =>
      let x := float_of_Z z in
      if is_infinity x then Raise OverflowError else Ok x
  end.

(** [a / b] on floats. *)
Definition py_div (a b : float) : result float :=
  if is_zero b then Raise ZeroDivisionError else Ok (a / b)%float.

(** [max(a, b)] and [min(a, b)]: the first argument unless the second is
    strictly beyond it. *)
Definition py_max (a b : float) : float := if (a <? b)%float then b else a.
Definition py_min (a b : float) : float := if (b <? a)%float then b else a.

(** [int(x)]: truncation toward zero. *)
Definition py_int (x : float) : result Z :=
  match Prim2SF x with
  | S754_nan => Raise ValueError
  | S754_infinity _ => Raise OverflowError
  | S754_zero _ => Ok 0
  | S754_finite s m e =>
      let a := if 0 <=? e then Z.pos m * 2 ^ e else Z.pos m / 2 ^ (- e) in
      Ok (if s then - a else a)
  end.

(** [round(x)] of Python 2: to the nearest integer, halves away from zero
    (up to the sign of a zero result, which [int] discards). *)
Definition py_round (x : float) : float :=
  match Prim2SF x with
  | S754_finite s m e =>
      if 0 <=? e then x
      else
        let d := 2 ^ (- e) in
        let q := Z.pos m / d in
        let a := if d <=? 2 * (Z.pos m mod d) then q + 1 else q in
        float_of_Z (if s then - a else a)
  | _ => x
  end.

(** [Resize.img_to_fobj]. *)
Definition img_to_fobj (self : Resize) (img : Image) : Encoded :=
  {| enc_image := img; enc_format := Resize_format; enc_quality := quality self |}.

(** The ratio of the branch without cropping. *)
Definition plain_ratio (self : Resize) (cur_width cur_height : Z) : result float :=
  match width self, height self with
  | Some _, Some _ =>
      w ← py_float (width self);
      cw ← py_float (Some cur_width);
      rw ← py_div w cw;
      h ← py_float (height self);
      ch ← py_float (Some cur_height);
      rh ← py_div h ch;
      mret (py_min rw rh)
  | None, _ =>
      h ← py_float (height self);
      ch ← py_float (Some cur_height);
      py_div h ch
  | Some _, None =>
      w ← py_float (width self);
      cw ← py_float (Some cur_width);
      py_div w cw
  end.

(** [n + m] for an integer and an attribute that may be [None]. *)
Definition py_add (n : Z) (m : option Z) : result Z :=
  match m with
  | Some z => Ok (n + z)
  | None => Raise TypeError
  end.

(** The dictionary literal of the crop branch, indexed at [1]
    ([crop_horz] and [crop_vert] are the constant 1): all three entries
    are evaluated, the second is returned. *)
Definition crop_table (diff : Z) (target : option Z)
    (crop_len resize_len : float) : result (Z * Z) :=
  hi ← py_add diff target;
  _ ← py_int crop_len;
  _ ← py_int resize_len;
  mret (diff, hi).

(** The crop branch up to the call of [resize] and [crop]: the ratio, the
    size to resize to and the box to cut out. *)
Definition crop_plan (self : Resize) (cur_width cur_height : Z) :
    result (float * (Z * Z) * (Z * Z * Z * Z)) :=
  w ← py_float (width self);
  cw ← py_float (Some cur_width);
  rw ← py_div w cw;
  h ← py_float (height self);
  ch ← py_float (Some cur_height);
  rh ← py_div h ch;
  let ratio := py_max rw rh in
  let resize_x := (cw * ratio)%float in
  let resize_y := (ch * ratio)%float in
  let crop_x := abs (w - resize_x)%float in
  let crop_y := abs (h - resize_y)%float in
  x_diff ← py_int (crop_x / 2)%float;
  y_diff ← py_int (crop_y / 2)%float;
  horz ← crop_table x_diff (width self) crop_x resize_x;
  let '(box_left, box_right) := horz in
  vert ← crop_table y_diff (height self) crop_y resize_y;
  let '(box_upper, box_lower) := vert in
  let box := (box_left, box_upper, box_right, box_lower) in
  rx ← py_int resize_x;
  ry ← py_int resize_y;
  mret (ratio, (rx, ry), box).

(** [new_dimensions] of the branch without cropping. *)
Definition new_dimensions (self : Resize) (cur_width cur_height : Z) :
    result (Z * Z) :=
  ratio ← plain_ratio self cur_width cur_height;
  cw ← py_float (Some cur_width);
  ch ← py_float (Some cur_height);
  nw ← py_int (py_round (cw * ratio)%float);
  nh ← py_int (py_round (ch * ratio)%float);
  mret (nw, nh).

(** [Resize.process], from the opened image on. *)
Definition Resize_process (self : Resize) (img : Image) : result Encoded :=
  let img := if String.eqb (img_mode img) "RGB" then img else convert "RGB" img in
  let '(cur_width, cur_height) := img_size img in
  if crop self then
    '(_, size, box) ← crop_plan self cur_width cur_height;
    mret (img_to_fobj self (crop_box box (resize size img)))
  else
    dims ← new_dimensions self cur_width cur_height;
    if ((cur_width <? dims.1) || (cur_height <? dims.2))%bool && negb (upscale self)
    then mret (img_to_fobj self img)
    else mret (img_to_fobj self (resize dims img)).

(** [Resize] as a processor on file pointers: [Image.open] and the encoder
    behind [img.save] belong to PIL and are parameters.  The class
    attribute [ext] is what [Field.extension] finds on it. *)
Definition Resize_processor (image_open : list Byte.byte → result Image)
    (encode : Encoded → list Byte.byte) (id : nat) (self : Resize) : Processor :=
  {| proc_id := id;
     proc_ext := Some (Some Resize_ext);
     process := λ fp,
       img ← image_open (f_data fp);
       tmp ← Resize_process self img;
       mret {| f_name := None; f_data := encode tmp |} |}.

(** ** The contract of the backend, and two backends that meet it *)

(** The relative name a [save] call asks for. *)
Definition requested (folder : option string) (nm : string) : string :=
  match folder with
  | Some f => os_path_join f nm
  | None => nm
  end.

(** Modelled from the spec: the storage backend is Flask-Uploads, which is
    not part of the repository.  A successful [save] persists the bytes of
    the stream at the path of the stored name it returns and touches no
    other file, and it departs from the requested name only to avoid a
    collision (sections 2, 4.1 and 6; the docstring of [FileKit.save]
    warns of the same renaming). *)
Record UploadSet_ok (u : UploadSet) : Prop := {
  save_stores : ∀ st folder nm fs0 fs1 stored,
    uset_save u st folder nm fs0 = (fs1, Ok stored) →
    fs1 = <[uset_path u stored := stream st]> fs0;
  save_fresh : ∀ st folder nm fs0 fs1 stored,
    uset_save u st folder (Some nm) fs0 = (fs1, Ok stored) →
    fs0 !! uset_path u (requested folder nm) = None →
    stored = requested folder nm
}.

Definition destination (set : string) : string := "/uploads/" +:+ set.

(** The first of [stem_1.ext], [stem_2.ext], ... that [taken] rejects,
    among the next [fuel] candidates from [count] on. *)
Fixpoint resolve_conflict (taken : string → bool) (basename : string)
    (count fuel : nat) : string :=
  let candidate :=
    match rpartition "." basename with
    | Some (stem, e) => stem +:+ "_" +:+ pretty count +:+ "." +:+ e
    | None => basename +:+ "_" +:+ pretty count
    end in
  match fuel with
  | O => candidate
  | S fuel' =>
      if taken candidate then resolve_conflict taken basename (S count) fuel'
      else candidate
  end.

(** Modelled from the spec: a backend over one destination directory per
    set.  With [rename] it stores a colliding upload under a fresh name
    next to the existing file ("backend may rename to avoid collisions");
    without, it replaces the existing file. *)
Definition directory_set (rename : bool) (set : string) : UploadSet :=
  let path := λ rel : string, os_path_join (destination set) rel in
  {| uset_path := path;
     uset_url := λ rel, "/_uploads/" +:+ set +:+ "/" +:+ rel;
     uset_save := λ st folder nm fs0,
       match (match nm with Some n => Some n | None => fs_filename st end) with
       | None => (fs0, Raise UploadNotAllowed)
       | Some basename =>
           let taken := λ b : string,
             bool_decide (is_Some (fs0 !! path (requested folder b))) in
           let basename :=
             if (rename && taken basename)%bool
             then resolve_conflict taken basename 1 (size fs0)
             else basename in
           let stored := requested folder basename in
           (<[path stored := stream st]> fs0, Ok stored)
       end |}.

Definition replacing_uploads : Uploads := directory_set false.
Definition renaming_uploads : Uploads := directory_set true.

(** ** The processor chain as a function *)

(** What the chain returns, and which processors it reaches: a processor
    that raises ends the loop. *)
Fixpoint chain (ps : list Processor) (fp : pyfile) : result pyfile :=
  match ps with
  | [] => Ok fp
  | p :: ps' => fp' ← process p fp; chain ps' fp'
  end.

Fixpoint reached (ps : list Processor) (fp : pyfile) : list nat :=
  match ps with
  | [] => []
  | p :: ps' =>
      proc_id p ::
      match process p fp with
      | Ok fp' => reached ps' fp'
      | Raise _ => []
      end
  end.

(** The processors [process] runs: those of every field when forced, of
    the eager fields otherwise. *)
Definition chain_ids (force : bool) (l : list (string * Field)) : list nat :=
  concat (map (λ lf : string * Field,
                 if (pre_cache lf.2 || force)%bool
                 then map proc_id (processors lf.2) else []) l).

(** ** Derived filenames *)

(** The extension a derived filename ends in: the field's when it is a
    non-empty string, the source's otherwise. *)
Definition derived_ext (e : option string) (src_ext : string) : string :=
  match e with
  | Some x => if String.eqb x "" then src_ext else x
  | None => src_ext
  end.

(** The claim on derived filenames as the specification words it: the
    source's extension is reused for a null effective extension only. *)
Definition derived_filename_claim (bf : BoundField) : Prop :=
  ∀ stem src_ext e,
    filename (fkit bf) = stem +:+ "." +:+ src_ext →
    contains "." src_ext = false →
    Field_extension (_field bf) = Ok e →
    BoundField_get_filename bf = Ok (dot_join stem (default src_ext e)).

Definition passthrough : Processor :=
  {| proc_id := 0; proc_ext := None; process := λ fp, Ok fp |}.

Definition photo_kit (f : Field) : FileKit :=
  {| kit := {| name := "photos"; fields := {["thumb" := f]} |};
     filename := "photo.png" |}.

(** A field whose explicit extension is the empty string. *)
Definition blank_ext_field : Field :=
  {| processors := [passthrough]; ext := Some ""; pre_cache := false |}.

(** ** Configuration errors *)

(** The labels a class body binds to fields, in order. *)
Definition field_labels (body : list (string * attr)) : list string :=
  omap (λ kv : string * attr, (λ _, kv.1) <$> as_field kv.2) body.

(** The claim on configuration errors as the specification words it: a
    body that declares a field label twice is refused when the kit is
    defined, and so is a field with an empty chain, at its construction or
    at the definition of its kit. *)
Definition duplicate_label_claim : Prop :=
  ∀ clsname body,
    ¬ NoDup (field_labels body) → is_ok (define_kit clsname body) = false.

Definition empty_chain_claim : Prop :=
  ∀ clsname label e pc,
    is_ok (f ← Field_init [] e pc; define_kit clsname [(label, AField f)])
    = false.

Definition small_field : Field :=
  {| processors := [passthrough]; ext := Some "jpg"; pre_cache := false |}.

Definition large_field : Field :=
  {| processors := [passthrough; passthrough]; ext := Some "png";
     pre_cache := true |}.

Definition empty_field : Field :=
  {| processors := []; ext := None; pre_cache := false |}.


(** ** Example states *)

(** A collection holding one uploaded source. *)
Definition one_photo : State :=
  {| fs := {[ "/uploads/photos/photo.png" := [Byte.x01] ]}; calls := [] |}.


(** A collection in which the thumbnail of [photo.png] has been generated
    before, with other bytes than its chain produces now. *)
Definition stale_thumb : State :=
  {| fs := {[ "/uploads/photos/photo.png" := [Byte.x01];
              "/uploads/photos/thumb/photo.jpg" := [Byte.x02] ]};
     calls := [] |}.

(** A kit with the lazy field [thumb] only, as a class. *)
Definition photos_class : FileKitClass :=
  {| name := "photos"; fields := {["thumb" := small_field]} |}.

(** ** The claims on generation as the specification words them *)

Section Claims.
Context `{U : Uploads} `{D : Disk}.

(** Every successful generation leaves the output of the chain at the
    derived path, whatever was there. *)
Definition overwrite_claim (bf : BoundField) : Prop :=
  ∀ s s' d out fname,
    fs s !! FileKit_path (fkit bf) = Some d →
    chain (processors (_field bf))
      {| f_name := Some (FileKit_path (fkit bf)); f_data := d |} = Ok out →
    BoundField_get_filename bf = Ok fname →
    BoundField_save bf s = (s', Ok tt) →
    fs s' !! uset_path (uset bf) (os_path_join (folder bf) fname)
    = Some (f_data out).

(** After [FileKit.save] the eager fields have a file at their derived
    path and the others have none. *)
Definition eager_lazy_claim (cls : FileKitClass) : Prop :=
  ∀ storage filename s s' inst label f p,
    FileKit_save cls storage filename s = (s', Ok inst) →
    fields cls !! label = Some f →
    BoundField_path (getattr_field inst label f) = Ok p →
    if pre_cache f then is_Some (fs s' !! p) else fs s' !! p = None.

End Claims.


(** A kit with a lazy and an eager field, and an upload for it. *)
Definition gallery_class : FileKitClass :=
  {| name := "gallery";
     fields := {[ "thumb" := small_field; "large" := large_field ]} |}.

Definition cat_upload : upload :=
  Storage {| stream := [Byte.x07]; fs_filename := Some "cat.png" |}.

Definition empty_disk : State := {| fs := ∅; calls := [] |}.

(** A kit instance whose source has no extension. *)
Definition readme_kit : FileKit :=
  {| kit := photos_class; filename := "README" |}.


(** ** Registration and the views *)

(** A Flask application, as far as the module touches it: the names of the
    registered modules, the [filekits] attribute (absent until it is set)
    and the names of the upload sets handed to [configure_uploads], in
    order. *)
Record App : Type := {
  modules : gset string;
  filekits : option (gmap string FileKitClass);
  upload_sets : list string
}.

(** What [configure_filekits] may be given: a [FileKit] subclass, another
    class, or a sequence of kits. *)
Inductive kits_arg : Type :=
| OneKit (cls : FileKitClass)
| OtherClass
| Kits (l : list FileKitClass).

(** [app.register_module(filekits_mod)]: the module is entered in
    [app.modules] under its name. *)
Definition register_module (app : App) : App :=
  {| modules := {["_filekits"]} ∪ modules app;
     filekits := filekits app;
     upload_sets := upload_sets app |}.

(** The loop of [configure_filekits]. *)
Fixpoint register_kits (l : list FileKitClass) (reg : gmap string FileKitClass)
    (sets : list string) : gmap string FileKitClass * list string :=
  match l with
  | [] => (reg, sets)
  | filekit :: l' =>
      register_kits l' (<[name filekit := filekit]> reg) (sets ++ [name filekit])
  end.

(** [configure_filekits].  [issubclass] raises [TypeError] when its first
    argument is not a class, and a class that is no kit cannot be iterated
    over; only a single kit passes both. *)
Definition configure_filekits (app : App) (arg : kits_arg) : App * result unit :=
  match arg with
  | Kits _ => (app, Raise TypeError)
  | _ =>
      let app := if bool_decide ("_filekits" ∈ modules app) then app
                 else register_module app in
      let reg := default ∅ (filekits app) in
      match arg with
      | OneKit cls =>
          let '(reg, sets) := register_kits [cls] reg (upload_sets app) in
          ({| modules := modules app; filekits := Some reg;
              upload_sets := sets |}, Ok tt)
      | _ =>
          ({| modules := modules app; filekits := Some reg;
              upload_sets := upload_sets app |}, Raise TypeError)
      end
  end.

(** What a view answers: a JSON object, the JSON object [{'files': [...]}],
    or the response [abort] produces. *)
Inductive response : Type :=
| Json (d : gmap string string)
| JsonFiles (files : list (gmap string string))
| Abort (code : Z).

Section Views.
Context `{U : Uploads} `{D : Disk}.

(** The view [file_info], on the registry [current_app.filekits]. *)
Definition file_info (registry : gmap string FileKitClass)
    (label filename : string) : M response :=
  match registry !! label with
  | None => mret (Abort 404)
  | Some filekit =>
      λ s, match FileKit_init filekit filename s with
           | (s', Ok fkit) => (d ← FileKit_to_dict fkit; mret (Json d)) s'
           | (s', Raise FileNotFound) => (s', Ok (Abort 404))
           | (s', Raise e) => (s', Raise e)
           end
  end.



(** The url [to_dict] reports for a bound field. *)
Definition field_url (bf : BoundField) : option string :=
  match BoundField_get_filename bf with
  | Ok fname => Some (uset_url (uset bf) (os_path_join (folder bf) fname))
  | Raise _ => None
  end.

(** The path at which a bound field keeps its derivative. *)
Definition field_path (bf : BoundField) : option string :=
  match BoundField_path bf with
  | Ok p => Some p
  | Raise _ => None
  end.

End Views.

(** The base class [Processor]: [process] returns its argument, and there
    is no [ext] attribute. *)
Definition Processor_base (id : nat) : Processor :=
  {| proc_id := id; proc_ext := None; process := λ fp, Ok fp |}.

(** A processor that cannot read its input. *)
Definition failing : Processor :=
  {| proc_id := 9; proc_ext := None; process := λ _, Raise ProcessorError |}.

Definition broken_field : Field :=
  {| processors := [passthrough; failing; passthrough]; ext := Some "jpg";
     pre_cache := true |}.

Definition fresh_app : App :=
  {| modules := ∅; filekits := None; upload_sets := [] |}.


(** A kit whose only field is eager and cannot be generated. *)
Definition broken_class : FileKitClass :=
  {| name := "broken"; fields := {["thumb" := broken_field]} |}.


(** ** Reading the answer of the upload view *)

Section Entries.
Context `{U : Uploads} `{D : Disk}.


End Entries.

(** A registry with the gallery kit, and an upload without a name. *)
Definition gallery_registry : gmap string FileKitClass :=
  {[ "gallery" := gallery_class ]}.


(** The folders of the example collections.  On the disk of the examples
    they stand from the start, whatever files are stored. *)
Definition uploads_dirs : list string :=
  [ "/uploads";
    "/uploads/photos"; "/uploads/photos/thumb";
    "/uploads/gallery"; "/uploads/gallery/thumb"; "/uploads/gallery/large";
    "/uploads/broken"; "/uploads/broken/thumb" ].

Definition standing_dirs : Disk := λ _ p, bool_decide (p ∈ uploads_dirs).

(** A disk with an empty collection and a file that is no upload. *)
Definition outside_photo : State :=
  {| fs := {[ "/tmp/photo.png" := [Byte.x05] ]}; calls := [] |}.

(** The disk with no folder but those the stored files need: a path is a
    directory when a file is stored below it. *)
Definition folders_of_files : Disk :=
  λ files p, existsb (String.prefix (p +:+ "/")) (map_to_list files).*1.

(** A registry with the photos kit. *)
Definition photos_registry : gmap string FileKitClass :=
  {[ "photos" := photos_class ]}.

(** * Properties *)

Ltac munfold :=
  unfold mbind, M_bind, result_bind, mret, M_ret, result_ret, lift in *.

Lemma rpartition_None c s : contains c s = false → rpartition c s = None.
Proof.
  induction s as [|d s IH]; simpl; [done|].
  destruct (Ascii.eqb d c); [done|].
  intros Hc. by rewrite IH.
Qed.

Lemma rpartition_last c a b :
  contains c b = false → rpartition c (a +:+ String c b) = Some (a, b).
Proof.
  intros Hb. induction a as [|d a IH]; simpl.
  - by rewrite (rpartition_None _ _ Hb), Ascii.eqb_refl.
  - by rewrite IH.
Qed.

Lemma rsplit1_no_sep c s : contains c s = false → rsplit1 c s = [s].
Proof. intros Hc. unfold rsplit1. by rewrite rpartition_None. Qed.

Lemma rsplit1_last c a b :
  contains c b = false → rsplit1 c (a +:+ String c b) = [a; b].
Proof. intros Hb. unfold rsplit1. by rewrite rpartition_last. Qed.

(** A name with a dot splits at its last dot. *)
Lemma contains_split c s :
  contains c s = true →
  ∃ a b, s = a +:+ String c b ∧ contains c b = false.
Proof.
  induction s as [|d s IH]; simpl; [done|].
  destruct (contains c s) eqn:Hs.
  - intros _. destruct (IH eq_refl) as (a & b & -> & Hb).
    by exists (String d a), b.
  - destruct (Ascii.eqb d c) eqn:Hd; [|done].
    intros _. apply Ascii.eqb_eq in Hd as ->. by exists "", s.
Qed.

Lemma reached_ok ps fp out : chain ps fp = Ok out → reached ps fp = map proc_id ps.
Proof.
  revert fp. induction ps as [|p ps IH]; intros fp; simpl; [done|].
  munfold. destruct (process p fp) as [fp'|e]; [|done].
  intros Hc. by rewrite (IH _ Hc).
Qed.

Lemma run_processors_spec ps fp s :
  run_processors ps fp s =
  ({| fs := fs s; calls := calls s ++ reached ps fp |}, chain ps fp).
Proof.
  revert fp s. induction ps as [|p ps IH]; intros fp s; simpl.
  - munfold. rewrite app_nil_r. by destruct s.
  - munfold. unfold Processor_call.
    destruct (process p fp) as [fp'|e]; [|done].
    rewrite IH. simpl. by rewrite <- app_assoc.
Qed.

Section Existence.
Context `{D : Disk}.

Lemma os_path_exists_file p s :
  is_Some (fs s !! p) → os_path_exists p s = (s, Ok true).
Proof.
  intros Hfile. unfold os_path_exists. by rewrite bool_decide_eq_true_2.
Qed.

Lemma os_path_exists_directory p s :
  is_directory (fs s) p = true → os_path_exists p s = (s, Ok true).
Proof.
  intros Hdir. unfold os_path_exists. by rewrite Hdir, orb_true_r.
Qed.

Lemma os_path_exists_nothing p s :
  fs s !! p = None → is_directory (fs s) p = false →
  os_path_exists p s = (s, Ok false).
Proof.
  intros Hfile Hdir. unfold os_path_exists. rewrite Hdir.
  rewrite bool_decide_eq_false_2; [done|]. rewrite Hfile. by intros [? ?].
Qed.

End Existence.

Section Properties.
Context `{U : Uploads} `{D : Disk}.

(** BoundField.save, step by step, once the source file is there. *)
Lemma BoundField_save_ok bf s d out fname fs1 stored :
  fs s !! FileKit_path (fkit bf) = Some d →
  chain (processors (_field bf))
    {| f_name := Some (FileKit_path (fkit bf)); f_data := d |} = Ok out →
  BoundField_get_filename bf = Ok fname →
  uset_save (uset bf) (FileStorage_new out None) (Some (folder bf)) (Some fname)
    (fs s) = (fs1, Ok stored) →
  BoundField_save bf s =
  ({| fs := fs1; calls := calls s ++ map proc_id (processors (_field bf)) |}, Ok tt).
Proof.
  intros Hsrc Hchain Hname Hsave.
  unfold BoundField_save, py_open, UploadSet_save. munfold.
  rewrite Hsrc, run_processors_spec, Hchain, Hname. simpl.
  by rewrite Hsave, (reached_ok _ _ _ Hchain).
Qed.

Lemma BoundField_save_inv bf s s' :
  BoundField_save bf s = (s', Ok tt) →
  ∃ d out fname stored,
    fs s !! FileKit_path (fkit bf) = Some d ∧
    chain (processors (_field bf))
      {| f_name := Some (FileKit_path (fkit bf)); f_data := d |} = Ok out ∧
    BoundField_get_filename bf = Ok fname ∧
    uset_save (uset bf) (FileStorage_new out None) (Some (folder bf))
      (Some fname) (fs s) = (fs s', Ok stored) ∧
    calls s' = calls s ++ map proc_id (processors (_field bf)).
Proof.
  unfold BoundField_save, py_open, UploadSet_save. munfold.
  destruct (fs s !! FileKit_path (fkit bf)) as [d|] eqn:Hsrc; [|done].
  rewrite run_processors_spec.
  destruct (chain _ _) as [out|e] eqn:Hchain; [|done].
  destruct (BoundField_get_filename bf) as [fname|e] eqn:Hname; [|done].
  simpl. destruct (uset_save _ _ _ _ _) as [fs1 [stored|e]] eqn:Hsave; [|done].
  intros [= <-]. exists d, out, fname, stored. simpl.
  by rewrite (reached_ok _ _ _ Hchain).
Qed.

(** The constructor raises FileNotFound at once, leaving the state as it
    was, when neither a file nor a directory is at the path of the
    filename. *)
Lemma init_not_found (cls : FileKitClass) (filename : string) (s : State) :
  fs s !! FileKit_path {| kit := cls; filename := filename |} = None →
  is_directory (fs s) (FileKit_path {| kit := cls; filename := filename |})
    = false →
  FileKit_init cls filename s = (s, Raise FileNotFound).
Proof.
  intros Habsent Hnodir. unfold FileKit_init. munfold.
  by rewrite os_path_exists_nothing.
Qed.

(** C10: when the source filename has no dot, the derived filename, the
    path and the url raise ValueError (the url before anything is
    generated), and generation raises as well and stores nothing. *)
Theorem no_dot_fails (bf : BoundField) (s : State) :
  contains "." (filename (fkit bf)) = false →
  BoundField_get_filename bf = Raise ValueError ∧
  BoundField_path bf = Raise ValueError ∧
  BoundField_url bf s = (s, Raise ValueError) ∧
  ∃ s' e, BoundField_save bf s = (s', Raise e) ∧ fs s' = fs s.
Proof.
  intros Hdot.
  assert (Hname : BoundField_get_filename bf = Raise ValueError).
  { unfold BoundField_get_filename. by rewrite rsplit1_no_sep. }
  assert (Hpath : BoundField_path bf = Raise ValueError).
  { unfold BoundField_path. by rewrite Hname. }
  repeat split; [done|done| |].
  - unfold BoundField_url. by rewrite Hpath.
  - unfold BoundField_save, py_open. munfold.
    destruct (fs s !! FileKit_path (fkit bf)) as [d|]; [|by eauto].
    rewrite run_processors_spec.
    destruct (chain _ _) as [out|e]; [|by eauto].
    rewrite Hname. by eauto.
Qed.

End Properties.

(** C5: an explicit extension is returned whatever the processors are;
    without one, the extension the last processor declares is returned;
    and when the last processor declares none (it has no [ext] attribute,
    or one that is [None]) the result is [None]. *)
Theorem extension_resolution :
  (∀ ps E pc,
     Field_extension {| processors := ps; ext := Some E; pre_cache := pc |}
     = Ok (Some E)) ∧
  (∀ ps i run P pc,
     let p := {| proc_id := i; proc_ext := Some (Some P); process := run |} in
     Field_extension {| processors := ps ++ [p]; ext := None; pre_cache := pc |}
     = Ok (Some P)) ∧
  (∀ ps i run pc,
     let p := {| proc_id := i; proc_ext := None; process := run |} in
     let p' := {| proc_id := i; proc_ext := Some None; process := run |} in
     Field_extension {| processors := ps ++ [p]; ext := None; pre_cache := pc |}
     = Ok None ∧
     Field_extension {| processors := ps ++ [p']; ext := None; pre_cache := pc |}
     = Ok None).
Proof.
  split; [done|]. split.
  - intros. unfold Field_extension. simpl. by rewrite last_snoc.
  - intros. unfold Field_extension. simpl. by rewrite !last_snoc.
Qed.

(** A field that ends in [Resize] and sets no extension is stored as
    [jpg]. *)
Lemma extension_of_resize image_open encode id self ps pc :
  Field_extension
    {| processors := ps ++ [Resize_processor image_open encode id self];
       ext := None; pre_cache := pc |}
  = Ok (Some "jpg").
Proof. unfold Field_extension. simpl. by rewrite last_snoc. Qed.

(** Without an explicit extension an empty chain has no last processor to
    ask, and the lookup raises. *)
Lemma extension_empty_chain pc :
  Field_extension {| processors := []; ext := None; pre_cache := pc |}
  = Raise IndexError.
Proof. reflexivity. Qed.

(** C6, as stated, fails: with the explicit extension [''] the effective
    extension is not null, yet the derived filename of [photo.png] is
    [photo.png] and not [photo.]. *)
Lemma derived_filename_blank_ext :
  ¬ derived_filename_claim
      (getattr_field (photo_kit blank_ext_field) "thumb" blank_ext_field).
Proof.
  intros Hclaim.
  specialize (Hclaim "photo" "png" (Some "") eq_refl eq_refl eq_refl).
  vm_compute in Hclaim. discriminate Hclaim.
Qed.

Section Derived.
Context `{U : Uploads} `{D : Disk}.

(** C6, amended: for a source filename [stem.ext] (split at its last dot)
    and a field whose effective extension is [e], the derived filename is
    [stem] joined by a dot to [e], and to the source's own extension when
    [e] is null or the empty string; the path is the backend's path of the
    folder joined with that name.  Neither reads the state, so both are
    the same at every call. *)
Theorem derived_filename (bf : BoundField) (stem src_ext : string)
    (e : option string) :
  filename (fkit bf) = stem +:+ "." +:+ src_ext →
  contains "." src_ext = false →
  Field_extension (_field bf) = Ok e →
  BoundField_get_filename bf = Ok (dot_join stem (derived_ext e src_ext)) ∧
  BoundField_path bf =
    Ok (uset_path (uset bf)
          (os_path_join (folder bf) (dot_join stem (derived_ext e src_ext)))) ∧
  ∀ s : State, lift (BoundField_path bf) s = (s, BoundField_path bf).
Proof.
  intros Hname Hext He.
  assert (Hfn : BoundField_get_filename bf
                = Ok (dot_join stem (derived_ext e src_ext))).
  { unfold BoundField_get_filename. rewrite Hname.
    change (stem +:+ "." +:+ src_ext) with (stem +:+ String "." src_ext).
    rewrite (rsplit1_last _ _ _ Hext), He. munfold.
    destruct e as [x|]; simpl; [|done].
    by destruct (String.eqb x ""). }
  split; [done|]. split; [|done]. unfold BoundField_path. by rewrite Hfn.
Qed.

End Derived.

Lemma derived_filename_witness :
  BoundField_get_filename
    (getattr_field (photo_kit blank_ext_field) "thumb" blank_ext_field)
  = Ok "photo.png" ∧
  BoundField_path (U := replacing_uploads)
    (getattr_field (photo_kit blank_ext_field) "thumb" blank_ext_field)
  = Ok "/uploads/photos/thumb/photo.png".
Proof.
  destruct (derived_filename (U := replacing_uploads)
              (getattr_field (photo_kit blank_ext_field) "thumb" blank_ext_field)
              "photo" "png" (Some "") eq_refl eq_refl eq_refl)
    as (Hname & Hpath & _).
  exact (conj Hname Hpath).
Defined.

(** ** Definition time *)

Lemma foldl_insert_notin (l : list (string * attr)) (m : gmap string attr)
    (label : string) :
  label ∉ l.*1 →
  foldl (λ m kv, <[kv.1 := kv.2]> m) m l !! label = m !! label.
Proof.
  revert m. induction l as [|[k a] l IH]; intros m Hnotin; simpl; [done|].
  rewrite fmap_cons, not_elem_of_cons in Hnotin. destruct Hnotin as [Hne Hl].
  rewrite IH by done. simpl in *. by rewrite lookup_insert_ne.
Qed.

Lemma class_namespace_last body1 body2 label a :
  label ∉ body2.*1 →
  class_namespace (body1 ++ (label, a) :: body2) !! label = Some a.
Proof.
  intros Hnotin. unfold class_namespace. rewrite foldl_app. simpl.
  rewrite foldl_insert_notin by done. apply lookup_insert_eq.
Qed.

(** C7, as stated, fails: a body that binds [thumb] to two fields defines a
    kit, and so does a body whose field has no processors; that field
    raises only when its extension is first asked for. *)
Lemma config_errors_undetected :
  ¬ duplicate_label_claim ∧ ¬ empty_chain_claim ∧
  BoundField_get_filename
    (getattr_field (photo_kit empty_field) "thumb" empty_field)
  = Raise IndexError.
Proof.
  split; [|split; [|reflexivity]].
  - intros Hclaim.
    specialize (Hclaim "PhotoKit"
                  [("thumb", AField small_field); ("thumb", AField large_field)]).
    assert (Hok : is_ok (define_kit "PhotoKit"
                  [("thumb", AField small_field); ("thumb", AField large_field)])
                  = true) by reflexivity.
    rewrite Hclaim in Hok; [done|].
    vm_compute. intros Hnd. apply NoDup_cons in Hnd as [Hnotin _].
    apply Hnotin. by left.
  - intros Hclaim. by specialize (Hclaim "PhotoKit" "thumb" None false).
Qed.

(** C7, amended: nothing is validated when a kit is defined.  Constructing
    a field and defining a kit succeed on every input; of several fields
    bound to one label the last one is kept; and an empty chain shows at
    first use, as an IndexError from the extension lookup when no explicit
    extension is given, and not at all when one is. *)
Theorem definition_never_fails :
  (∀ ps e pc,
     Field_init ps e pc = Ok {| processors := ps; ext := e; pre_cache := pc |}) ∧
  (∀ clsname body, ∃ cls, define_kit clsname body = Ok cls) ∧
  (∀ clsname body1 body2 label f cls,
     label ≠ "fields" →
     label ∉ body2.*1 →
     define_kit clsname (body1 ++ (label, AField f) :: body2) = Ok cls →
     fields cls !! label = Some f) ∧
  (∀ pc,
     Field_extension {| processors := []; ext := None; pre_cache := pc |}
     = Raise IndexError) ∧
  (∀ E pc,
     Field_extension {| processors := []; ext := Some E; pre_cache := pc |}
     = Ok (Some E)).
Proof.
  split; [done|]. split; [by eauto|]. split; [|done].
  intros clsname body1 body2 label f cls Hne Hnotin [= <-]. simpl.
  rewrite lookup_omap, lookup_delete_ne by done.
  by rewrite class_namespace_last.
Qed.

Lemma definition_never_fails_witness :
  ∃ cls,
    define_kit "PhotoKit"
      [("thumb", AField small_field); ("thumb", AField large_field)] = Ok cls ∧
    fields cls !! "thumb" = Some large_field.
Proof.
  destruct definition_never_fails as (_ & Hdef & Hlast & _).
  destruct (Hdef "PhotoKit"
              [("thumb", AField small_field); ("thumb", AField large_field)])
    as [cls Hcls].
  exists cls. split; [exact Hcls|].
  refine (Hlast "PhotoKit" [("thumb", AField small_field)] [] "thumb"
            large_field cls _ _ Hcls).
  - discriminate.
  - apply not_elem_of_nil.
Defined.

(** ** The resize processor *)

(** C8: cropping a 200x100 image to 100x100.  The ratio is
    max(100/200, 100/100) = max(0.5, 1.0) = 1.0, the image is resized to
    200x100, the box runs from 50 to 150 horizontally (50 columns trimmed
    on the left, 200 - 150 = 50 on the right) and over the full height,
    and the encoded image is 100x100. *)
Theorem resize_crop_example (m : string) (up : bool) (q : Z) :
  let self := {| width := Some 100; height := Some 100; crop := true;
                 upscale := up; quality := q |} in
  let img := {| img_mode := m; img_size := (200, 100) |} in
  (w ← py_float (Some 100); cw ← py_float (Some 200); rw ← py_div w cw;
   h ← py_float (Some 100); ch ← py_float (Some 100); rh ← py_div h ch;
   mret (rw, rh, py_max rw rh))
    = Ok (0.5%float, 1%float, 1%float) ∧
  crop_plan self 200 100 = Ok (1%float, (200, 100), (50, 0, 150, 100)) ∧
  ∃ out, Resize_process self img = Ok out ∧
         img_size (enc_image out) = (100, 100).
Proof.
  intros self img. split; [reflexivity|]. split; [reflexivity|].
  unfold Resize_process.
  replace (img_size (if String.eqb (img_mode img) "RGB" then img
                     else convert "RGB" img)) with (200, 100)
    by (by destruct (String.eqb (img_mode img) "RGB")).
  change (crop self) with true. cbv iota.
  change (crop_plan self 200 100)
    with (Ok (1%float, (200, 100), (50, 0, 150, 100))).
  eexists. split; reflexivity.
Qed.

Lemma rgb_size img :
  img_size (if String.eqb (img_mode img) "RGB" then img else convert "RGB" img)
  = img_size img.
Proof. by destruct (String.eqb (img_mode img) "RGB"). Qed.

(** C9: without cropping and with upscaling disabled, when a new dimension
    exceeds the source's the image is encoded as it is (after the
    conversion to RGB), at its own size; a 50x50 source with a 100x100
    target has new dimensions 100x100 and comes out 50x50. *)
Theorem resize_upscale_skip :
  (∀ self img cw ch nw nh,
     crop self = false →
     upscale self = false →
     img_size img = (cw, ch) →
     new_dimensions self cw ch = Ok (nw, nh) →
     cw < nw ∨ ch < nh →
     Resize_process self img =
       Ok (img_to_fobj self
             (if String.eqb (img_mode img) "RGB" then img
              else convert "RGB" img)) ∧
     ∃ out, Resize_process self img = Ok out ∧
            img_size (enc_image out) = (cw, ch)) ∧
  (∀ m q,
     let self := {| width := Some 100; height := Some 100; crop := false;
                    upscale := false; quality := q |} in
     let img := {| img_mode := m; img_size := (50, 50) |} in
     new_dimensions self 50 50 = Ok (100, 100) ∧
     ∃ out, Resize_process self img = Ok out ∧
            img_size (enc_image out) = (50, 50)).
Proof.
  assert (Hgen : ∀ self img cw ch nw nh,
     crop self = false → upscale self = false → img_size img = (cw, ch) →
     new_dimensions self cw ch = Ok (nw, nh) → cw < nw ∨ ch < nh →
     Resize_process self img =
       Ok (img_to_fobj self
             (if String.eqb (img_mode img) "RGB" then img
              else convert "RGB" img))).
  { intros self img cw ch nw nh Hcrop Hup Hsize Hdims Hexceeds.
    unfold Resize_process. rewrite rgb_size, Hsize, Hcrop, Hdims, Hup.
    munfold. simpl.
    replace ((cw <? nw) || (ch <? nh))%bool with true; [done|].
    symmetry. apply orb_true_iff.
    destruct Hexceeds; [left|right]; by apply Z.ltb_lt. }
  split.
  - intros self img cw ch nw nh Hcrop Hup Hsize Hdims Hexceeds.
    split; [by eapply Hgen|].
    eexists. split; [by eapply Hgen|]. simpl. by rewrite rgb_size.
  - intros m q self img. split; [reflexivity|].
    eexists. split.
    + apply (Hgen self img 50 50 100 100); try reflexivity. left. lia.
    + simpl. by destruct (String.eqb m "RGB").
Qed.

Lemma resize_upscale_skip_witness :
  ∃ out,
    Resize_process
      {| width := Some 100; height := Some 100; crop := false;
         upscale := false; quality := 80 |}
      {| img_mode := "RGB"; img_size := (50, 50) |} = Ok out ∧
    img_size (enc_image out) = (50, 50).
Proof.
  refine (proj2 (proj1 resize_upscale_skip
            {| width := Some 100; height := Some 100; crop := false;
               upscale := false; quality := 80 |}
            {| img_mode := "RGB"; img_size := (50, 50) |}
            50 50 100 100 _ _ _ _ _)); try reflexivity.
  left. lia.
Defined.

(** ** The backends meet the contract *)

Lemma directory_set_ok rename set : UploadSet_ok (directory_set rename set).
Proof.
  split.
  - intros st folder nm fs0 fs1 stored. simpl.
    destruct nm as [n|]; [|destruct (fs_filename st)];
      intros [= <- <-]; done.
  - intros st folder nm fs0 fs1 stored. simpl. intros [= <- <-] Hfree.
    rewrite (bool_decide_eq_false_2 (is_Some _)); [|rewrite Hfree; by intros [? ?]].
    by rewrite andb_false_r.
Qed.

(** ** The disk of the examples *)

Lemma contains_append_r c a b :
  contains c b = true → contains c (a +:+ b) = true.
Proof.
  intros Hb. induction a as [|d a IH]; [done|].
  change (String d a +:+ b) with (String d (a +:+ b)). simpl.
  by destruct (Ascii.eqb d c).
Qed.

Lemma contains_os_path_join c a b :
  contains c b = true → contains c (os_path_join a b) = true.
Proof.
  intros Hb. unfold os_path_join.
  destruct (startswith "/" b); [done|].
  destruct (_ || _)%bool; [by apply contains_append_r|].
  by do 2 apply contains_append_r.
Qed.

(** A derived filename has a dot. *)
Lemma get_filename_has_dot bf fname :
  BoundField_get_filename bf = Ok fname → contains "." fname = true.
Proof.
  unfold BoundField_get_filename, dot_join. munfold.
  intros Hname. repeat case_match; simplify_eq;
    by apply contains_append_r.
Qed.

(** On the disk of the examples no derivative of a directory set is a
    directory: the folders have no dot in their names. *)
Lemma standing_dirs_no_derivative rename bf p files :
  BoundField_path (U := directory_set rename) bf = Ok p →
  @is_directory standing_dirs files p = false.
Proof.
  unfold BoundField_path. munfold.
  destruct (BoundField_get_filename bf) as [fname|e] eqn:Hname; [|done].
  intros [= Hp]. apply get_filename_has_dot in Hname.
  assert (Hdot : contains "." p = true).
  { rewrite <- Hp. simpl. by do 2 apply contains_os_path_join. }
  clear Hp. apply bool_decide_eq_false_2. intros Hin.
  unfold uploads_dirs in Hin.
  repeat (apply elem_of_cons in Hin as [->|Hin];
          [by vm_compute in Hdot|]).
  by apply elem_of_nil in Hin.
Qed.

(** ** Lazy generation *)

Section Lazy.
Context `{U : Uploads} `{D : Disk}.

(** The gate of [url]: generation runs exactly when nothing exists at the
    path, and the url follows. *)
Lemma url_when_absent bf s fname :
  BoundField_get_filename bf = Ok fname →
  fs s !! uset_path (uset bf) (os_path_join (folder bf) fname) = None →
  is_directory (fs s) (uset_path (uset bf) (os_path_join (folder bf) fname))
    = false →
  BoundField_url bf s =
  match BoundField_save bf s with
  | (s', Ok _) => (s', Ok (uset_url (uset bf) (os_path_join (folder bf) fname)))
  | (s', Raise e) => (s', Raise e)
  end.
Proof.
  intros Hname Habsent Hnodir.
  unfold BoundField_url, BoundField_path. rewrite Hname.
  munfold. rewrite os_path_exists_nothing by done.
  by destruct (BoundField_save bf s) as [s' [[]|e]].
Qed.

Lemma url_when_present bf s fname :
  BoundField_get_filename bf = Ok fname →
  is_Some (fs s !! uset_path (uset bf) (os_path_join (folder bf) fname)) →
  BoundField_url bf s =
  (s, Ok (uset_url (uset bf) (os_path_join (folder bf) fname))).
Proof.
  intros Hname Hthere.
  unfold BoundField_url, BoundField_path. rewrite Hname.
  munfold. by rewrite os_path_exists_file.
Qed.

Lemma url_when_directory bf s fname :
  BoundField_get_filename bf = Ok fname →
  is_directory (fs s) (uset_path (uset bf) (os_path_join (folder bf) fname))
    = true →
  BoundField_url bf s =
  (s, Ok (uset_url (uset bf) (os_path_join (folder bf) fname))).
Proof.
  intros Hname Hdir.
  unfold BoundField_url, BoundField_path. rewrite Hname.
  munfold. by rewrite os_path_exists_directory.
Qed.

(** C1: when nothing exists at the derivative's path (no file is stored
    there and it is no directory), [url] runs the
    generation (source opened, every processor of the chain called once in
    order, result handed to the backend) and returns the backend's url of
    that path; afterwards the derivative is there, and a second [url]
    returns the same url from the same state, so that over both calls the
    chain has run exactly once. *)
Theorem url_generates_once (bf : BoundField) (s : State) (fname : string)
    (d : list Byte.byte) (out : pyfile) (fs1 : gmap string (list Byte.byte))
    (stored : string) :
  UploadSet_ok (uset bf) →
  BoundField_get_filename bf = Ok fname →
  fs s !! uset_path (uset bf) (os_path_join (folder bf) fname) = None →
  is_directory (fs s) (uset_path (uset bf) (os_path_join (folder bf) fname))
    = false →
  fs s !! FileKit_path (fkit bf) = Some d →
  chain (processors (_field bf))
    {| f_name := Some (FileKit_path (fkit bf)); f_data := d |} = Ok out →
  uset_save (uset bf) (FileStorage_new out None) (Some (folder bf)) (Some fname)
    (fs s) = (fs1, Ok stored) →
  let p := uset_path (uset bf) (os_path_join (folder bf) fname) in
  let u := uset_url (uset bf) (os_path_join (folder bf) fname) in
  let s1 := {| fs := fs1;
               calls := calls s ++ map proc_id (processors (_field bf)) |} in
  BoundField_path bf = Ok p ∧
  BoundField_save bf s = (s1, Ok tt) ∧
  BoundField_url bf s = (s1, Ok u) ∧
  fs s1 !! p = Some (f_data out) ∧
  BoundField_url bf s1 = (s1, Ok u).
Proof.
  intros Hok Hname Habsent Hnodir Hsrc Hchain Hsave p u s1.
  assert (Hpath : BoundField_path bf = Ok p).
  { unfold BoundField_path. by rewrite Hname. }
  assert (Hgen : BoundField_save bf s = (s1, Ok tt)).
  { by eapply BoundField_save_ok. }
  assert (Hthere : fs s1 !! p = Some (f_data out)).
  { unfold s1, p. simpl.
    rewrite (save_stores _ Hok _ _ _ _ _ _ Hsave).
    pose proof (save_fresh _ Hok _ _ _ _ _ _ Hsave Habsent) as ->.
    simpl. apply lookup_insert_eq. }
  repeat split; try done.
  - by rewrite (url_when_absent _ _ _ Hname Habsent Hnodir), Hgen.
  - apply url_when_present; [done|]. fold p. by rewrite Hthere.
Qed.

End Lazy.

Lemma url_generates_once_witness :
  let bf := getattr_field (photo_kit small_field) "thumb" small_field in
  let s1 := {| fs := <[ "/uploads/photos/thumb/photo.jpg" := [Byte.x01] ]>
                       (fs one_photo);
               calls := [0%nat] |} in
  BoundField_path (U := replacing_uploads) bf
    = Ok "/uploads/photos/thumb/photo.jpg" ∧
  BoundField_save (U := replacing_uploads) bf one_photo = (s1, Ok tt) ∧
  BoundField_url (U := replacing_uploads) (D := standing_dirs) bf one_photo
    = (s1, Ok "/_uploads/photos/thumb/photo.jpg") ∧
  fs s1 !! "/uploads/photos/thumb/photo.jpg" = Some [Byte.x01] ∧
  BoundField_url (U := replacing_uploads) (D := standing_dirs) bf s1
    = (s1, Ok "/_uploads/photos/thumb/photo.jpg").
Proof.
  exact (url_generates_once (U := replacing_uploads) (D := standing_dirs)
           (getattr_field (photo_kit small_field) "thumb" small_field)
           one_photo "photo.jpg" [Byte.x01]
           {| f_name := Some "/uploads/photos/photo.png"; f_data := [Byte.x01] |}
           _ "thumb/photo.jpg"
           (directory_set_ok false "photos")
           eq_refl eq_refl eq_refl eq_refl eq_refl eq_refl).
Defined.

(** ** Generation and processing *)

(** Generation does not always leave its output at the derived path: on a
    backend that renames to avoid collisions, generating the thumbnail of
    [photo.png] while one is stored leaves the stored one as it is. *)
Lemma generate_keeps_stale_file :
  UploadSet_ok (uset (U := renaming_uploads)
                  (getattr_field (photo_kit small_field) "thumb" small_field)) ∧
  ¬ overwrite_claim (U := renaming_uploads)
      (getattr_field (photo_kit small_field) "thumb" small_field).
Proof.
  split; [apply directory_set_ok|].
  intros Hclaim.
  specialize (Hclaim stale_thumb
    (BoundField_save (U := renaming_uploads)
       (getattr_field (photo_kit small_field) "thumb" small_field)
       stale_thumb).1
    [Byte.x01]
    {| f_name := Some "/uploads/photos/photo.png"; f_data := [Byte.x01] |}
    "photo.jpg" eq_refl eq_refl eq_refl eq_refl).
  vm_compute in Hclaim. discriminate Hclaim.
Qed.

(** C2, as stated, fails: with [photo.png] uploaded and its thumbnail
    generated, uploading [photo.jpg] returns a kit instance whose lazy
    thumbnail already has a file at its derived path. *)
Lemma save_finds_lazy_file :
  UploadSet_ok (get_upload_set (U := renaming_uploads) photos_class) ∧
  ¬ eager_lazy_claim (U := renaming_uploads) (D := standing_dirs) photos_class.
Proof.
  split; [apply directory_set_ok|].
  intros Hclaim.
  specialize (Hclaim
    (Storage {| stream := [Byte.x03]; fs_filename := Some "photo.jpg" |})
    (Some "photo.jpg") stale_thumb
    {| fs := <[ "/uploads/photos/photo.jpg" := [Byte.x03] ]> (fs stale_thumb);
       calls := [] |}
    {| kit := photos_class; filename := "photo.jpg" |}
    "thumb" small_field "/uploads/photos/thumb/photo.jpg"
    eq_refl eq_refl eq_refl).
  vm_compute in Hclaim. discriminate Hclaim.
Qed.

Section Processing.
Context `{U : Uploads} `{D : Disk}.

(** What a successful generation does to the files, given the contract. *)
Lemma BoundField_save_effect bf s s' :
  UploadSet_ok (uset bf) →
  BoundField_save bf s = (s', Ok tt) →
  ∃ out fname stored,
    BoundField_get_filename bf = Ok fname ∧
    uset_save (uset bf) (FileStorage_new out None) (Some (folder bf))
      (Some fname) (fs s) = (fs s', Ok stored) ∧
    fs s' = <[uset_path (uset bf) stored := f_data out]> (fs s) ∧
    is_Some (fs s' !! uset_path (uset bf) (os_path_join (folder bf) fname)).
Proof.
  intros Hok Hgen.
  destruct (BoundField_save_inv _ _ _ Hgen)
    as (d & out & fname & stored & _ & _ & Hname & Hsave & _).
  exists out, fname, stored.
  pose proof (save_stores _ Hok _ _ _ _ _ _ Hsave) as Hfs. simpl in Hfs.
  repeat split; try done.
  destruct (fs s !! uset_path (uset bf) (os_path_join (folder bf) fname))
    as [old|] eqn:Hold.
  - rewrite Hfs. apply lookup_insert_is_Some'. right. by rewrite Hold.
  - pose proof (save_fresh _ Hok _ _ _ _ _ _ Hsave Hold) as Hstored.
    simpl in Hstored. rewrite Hfs, Hstored, lookup_insert_eq. by eexists.
Qed.

Lemma chain_ids_cons force label f l :
  chain_ids force ((label, f) :: l) =
  (if (pre_cache f || force)%bool then map proc_id (processors f) else [])
  ++ chain_ids force l.
Proof. reflexivity. Qed.

(** The processors a successful pass has called. *)
Lemma process_fields_calls k force l s s' :
  process_fields k force l s = (s', Ok tt) →
  calls s' = calls s ++ chain_ids force l.
Proof.
  revert s. induction l as [|[label f] l IH]; intros s; simpl.
  - munfold. intros [= <-]. by rewrite app_nil_r.
  - munfold. rewrite chain_ids_cons.
    destruct (pre_cache f || force)%bool.
    + destruct (BoundField_save _ s) as [s1 [[]|e]] eqn:Hgen; [|done].
      intros Hrest. rewrite (IH _ Hrest).
      destruct (BoundField_save_inv _ _ _ Hgen)
        as (_ & _ & _ & _ & _ & _ & _ & _ & ->).
      simpl. by rewrite app_assoc.
    + intros Hrest. by rewrite (IH _ Hrest).
Qed.

(** The files a successful pass leaves: nothing is removed, every field it
    generates has a file at its derived path, and every file that was not
    there before is one the backend stored for a generated field. *)
Lemma process_fields_files k force l s s' :
  UploadSet_ok (get_upload_set (kit k)) →
  process_fields k force l s = (s', Ok tt) →
  (∀ p, is_Some (fs s !! p) → is_Some (fs s' !! p)) ∧
  (∀ label f, (label, f) ∈ l → (pre_cache f || force)%bool = true →
     ∃ p, BoundField_path (getattr_field k label f) = Ok p ∧
          is_Some (fs s' !! p)) ∧
  (∀ p, is_Some (fs s' !! p) →
     is_Some (fs s !! p) ∨
     ∃ label f fname st fs0 fs1 stored,
       (label, f) ∈ l ∧ (pre_cache f || force)%bool = true ∧
       BoundField_get_filename (getattr_field k label f) = Ok fname ∧
       uset_save (get_upload_set (kit k)) st (Some label) (Some fname) fs0
         = (fs1, Ok stored) ∧
       p = uset_path (get_upload_set (kit k)) stored).
Proof.
  intros Hok. revert s. induction l as [|[label f] l IH]; intros s; simpl.
  - munfold. intros [= <-]. repeat split; [done| |by left].
    intros ? ? Hin. by apply elem_of_nil in Hin.
  - munfold. destruct (pre_cache f || force)%bool eqn:Hrun.
    + destruct (BoundField_save _ s) as [s1 [[]|e]] eqn:Hgen; [|done].
      intros Hrest. destruct (IH _ Hrest) as (Hmono & Hgenerated & Hframe).
      destruct (BoundField_save_effect (getattr_field k label f) _ _ Hok Hgen)
        as (out & fname & stored & Hname & Hsave & Hfs & Hthere).
      simpl in *. repeat split.
      * intros p Hp. apply Hmono. rewrite Hfs.
        apply lookup_insert_is_Some'. by right.
      * intros label' f' Hin Hrun'. apply elem_of_cons in Hin as [[= -> ->]|Hin].
        -- eexists. split; [unfold BoundField_path; by rewrite Hname|].
           by apply Hmono.
        -- by apply Hgenerated.
      * intros p Hp. destruct (Hframe p Hp) as [Hp1|Hwritten].
        -- rewrite Hfs in Hp1. apply lookup_insert_is_Some' in Hp1 as [<-|Hp0];
             [|by left].
           right. exists label, f, fname, (FileStorage_new out None), (fs s),
             (fs s1), stored.
           repeat split; try done. by left.
        -- right.
           destruct Hwritten as (l' & f' & n' & st & fs0 & fs1 & sd & Hin & ?).
           exists l', f', n', st, fs0, fs1, sd. split; [by right|done].
    + intros Hrest. destruct (IH _ Hrest) as (Hmono & Hgenerated & Hframe).
      repeat split; [done| |].
      * intros label' f' Hin Hrun'. apply elem_of_cons in Hin as [[= -> ->]|Hin].
        -- by rewrite Hrun in Hrun'.
        -- by apply Hgenerated.
      * intros p Hp. destruct (Hframe p Hp) as [Hp1|Hwritten]; [by left|].
        right.
        destruct Hwritten as (l' & f' & n' & st & fs0 & fs1 & sd & Hin & ?).
        exists l', f', n', st, fs0, fs1, sd. split; [by right|done].
Qed.

End Processing.

Section Generation.
Context `{U : Uploads} `{D : Disk}.

(** Every generation opens the source, calls every processor
    of the chain once, in order, and hands the result to the backend under
    the field's label and the derived filename, whether or not a file is
    stored there.  The file at the derived path then holds the new
    output when the backend stores under the requested name; a backend
    that renames on collision stores it elsewhere.  A forced [process]
    that returns has generated every declared field: the chain of each has
    run in full. *)
Theorem generate_reruns_chain :
  (∀ bf s d out fname fs1 stored,
     fs s !! FileKit_path (fkit bf) = Some d →
     chain (processors (_field bf))
       {| f_name := Some (FileKit_path (fkit bf)); f_data := d |} = Ok out →
     BoundField_get_filename bf = Ok fname →
     uset_save (uset bf) (FileStorage_new out None) (Some (folder bf))
       (Some fname) (fs s) = (fs1, Ok stored) →
     BoundField_save bf s =
       ({| fs := fs1;
           calls := calls s ++ map proc_id (processors (_field bf)) |}, Ok tt) ∧
     (UploadSet_ok (uset bf) →
      fs1 = <[uset_path (uset bf) stored := f_data out]> (fs s) ∧
      (stored = os_path_join (folder bf) fname →
       fs1 !! uset_path (uset bf) (os_path_join (folder bf) fname)
       = Some (f_data out)))) ∧
  (∀ k s s',
     FileKit_process k true s = (s', Ok tt) →
     calls s' = calls s ++ chain_ids true (map_to_list (fields (kit k))) ∧
     (∀ label f,
        fields (kit k) !! label = Some f →
        ∃ before after,
          calls s' = calls s ++ before ++ map proc_id (processors f) ++ after) ∧
     (UploadSet_ok (get_upload_set (kit k)) →
      ∀ label f,
        fields (kit k) !! label = Some f →
        ∃ p, BoundField_path (getattr_field k label f) = Ok p ∧
             is_Some (fs s' !! p))).
Proof.
  split.
  - intros bf s d out fname fs1 stored Hsrc Hchain Hname Hsave.
    split; [by eapply BoundField_save_ok|].
    intros Hok.
    pose proof (save_stores _ Hok _ _ _ _ _ _ Hsave) as Hfs. simpl in Hfs.
    split; [done|]. intros <-. rewrite Hfs. apply lookup_insert_eq.
  - intros k s s' Hrun. unfold FileKit_process in Hrun.
    pose proof (process_fields_calls _ _ _ _ _ Hrun) as Hcalls.
    split; [done|]. split.
    + intros label f Hf.
      apply elem_of_map_to_list in Hf.
      apply list_elem_of_split in Hf as (l1 & l2 & Hl).
      exists (chain_ids true l1), (chain_ids true l2).
      rewrite Hcalls, Hl. unfold chain_ids.
      rewrite map_app, concat_app. simpl. by rewrite orb_true_r.
    + intros Hok label f Hf.
      destruct (process_fields_files _ _ _ _ _ Hok Hrun) as (_ & Hgenerated & _).
      apply Hgenerated; [by apply elem_of_map_to_list | apply orb_true_r].
Qed.

(** C2, amended: a [FileKit.save] that returns has stored the upload
    through the backend, built the instance around the stored name and run
    [process] without force.  Then only the processors of eager fields
    have been called, every eager field has a file at its derived path,
    and the only files added are the source and what the backend stored
    for eager fields: the derived path of a lazy field holds a file only
    if one was there before the upload or one of those writes landed on
    it. *)
Theorem save_generates_eager_only (cls : FileKitClass) (storage : upload)
    (suggested : option string) (s s' : State) (inst : FileKit) :
  UploadSet_ok (get_upload_set cls) →
  FileKit_save cls storage suggested s = (s', Ok inst) →
  let st := match storage with
            | Storage st => st
            | Stream fp => FileStorage_new fp suggested
            end in
  (∃ fs1,
     uset_save (get_upload_set cls) st None suggested (fs s)
       = (fs1, Ok (filename inst)) ∧
     kit inst = cls ∧
     fs1 !! FileKit_path inst = Some (stream st) ∧
     FileKit_process inst false {| fs := fs1; calls := calls s |}
       = (s', Ok tt)) ∧
  calls s' = calls s ++ chain_ids false (map_to_list (fields cls)) ∧
  (∀ label f,
     fields cls !! label = Some f → pre_cache f = true →
     ∃ p, BoundField_path (getattr_field inst label f) = Ok p ∧
          is_Some (fs s' !! p)) ∧
  (∀ p,
     is_Some (fs s' !! p) →
     is_Some (fs s !! p) ∨ p = FileKit_path inst ∨
     ∃ label f fname st' fs0 fs2 stored,
       fields cls !! label = Some f ∧ pre_cache f = true ∧
       BoundField_get_filename (getattr_field inst label f) = Ok fname ∧
       uset_save (get_upload_set cls) st' (Some label) (Some fname) fs0
         = (fs2, Ok stored) ∧
       p = uset_path (get_upload_set cls) stored).
Proof.
  intros Hok Hsave st.
  unfold FileKit_save, UploadSet_save, FileKit_init in Hsave.
  munfold. fold st in Hsave.
  destruct (uset_save (get_upload_set cls) st None suggested (fs s))
    as [fs1 [stored|e]] eqn:Hstore; [|done].
  pose proof (save_stores _ Hok _ _ _ _ _ _ Hstore) as Hfs1.
  cbv beta iota zeta in Hsave. rewrite os_path_exists_file in Hsave.
  2: { unfold FileKit_path. simpl. rewrite Hfs1, lookup_insert_eq.
       by eexists. }
  destruct (FileKit_process _ false _) as [s2 [[]|e]] eqn:Hproc; [|done].
  injection Hsave as <- <-. simpl in *.
  unfold FileKit_process in Hproc. simpl in Hproc.
  pose proof (process_fields_calls _ _ _ _ _ Hproc) as Hcalls.
  destruct (process_fields_files _ _ _ _ _ Hok Hproc)
    as (Hmono & Hgenerated & Hframe).
  simpl in *. repeat split.
  - exists fs1. repeat split; try done.
    unfold FileKit_path. simpl. rewrite Hfs1. apply lookup_insert_eq.
  - done.
  - intros label f Hf Heager. apply Hgenerated.
    + by apply elem_of_map_to_list.
    + by rewrite Heager.
  - intros p Hp. destruct (Hframe p Hp) as [Hp1|Hwritten].
    + rewrite Hfs1 in Hp1. apply lookup_insert_is_Some' in Hp1 as [<-|Hp0];
        [right; by left | by left].
    + right. right.
      destruct Hwritten
        as (label & f & fname & st' & fs0 & fs2 & sd & Hin & Hrun & Hrest).
      exists label, f, fname, st', fs0, fs2, sd.
      split; [by apply elem_of_map_to_list|].
      split; [by rewrite orb_false_r in Hrun|done].
Qed.

End Generation.

(** ** Instances of the conditional statements *)

Lemma init_not_found_witness :
  FileKit_init (U := replacing_uploads) (D := standing_dirs)
      photos_class "missing.png" one_photo
  = (one_photo, Raise FileNotFound).
Proof.
  exact (init_not_found (U := replacing_uploads) (D := standing_dirs)
           photos_class "missing.png" one_photo eq_refl eq_refl).
Defined.

(** C3: the constructor does not fail for every name under which the
    collection holds no source file.  With the thumbnail of [photo.png]
    stored, the folder of the label [thumb] is on the disk: no file is
    stored under the name [thumb] and none was ever saved under it, yet
    [os.path.exists] is true of its path and the constructor returns an
    instance, on the disk that has no folder but those its files need and
    on the disk of the examples alike.  And for the name [/tmp/photo.png]
    the path leaves the collection: a file there, of which the collection
    knows nothing, makes the constructor return an instance too. *)
Theorem init_accepts_directory :
  (FileKit_path (U := renaming_uploads)
     {| kit := photos_class; filename := "thumb" |} = "/uploads/photos/thumb" ∧
   fs stale_thumb !! "/uploads/photos/thumb" = None ∧
   fs stale_thumb !! "/uploads/photos/thumb/photo.jpg" = Some [Byte.x02] ∧
   @is_directory folders_of_files (fs stale_thumb) "/uploads/photos/thumb"
     = true ∧
   FileKit_init (U := renaming_uploads) (D := folders_of_files) photos_class
     "thumb" stale_thumb
   = (stale_thumb, Ok {| kit := photos_class; filename := "thumb" |}) ∧
   FileKit_init (U := renaming_uploads) (D := standing_dirs) photos_class
     "thumb" stale_thumb
   = (stale_thumb, Ok {| kit := photos_class; filename := "thumb" |})) ∧
  (FileKit_path (U := renaming_uploads)
     {| kit := photos_class; filename := "/tmp/photo.png" |}
   = "/tmp/photo.png" ∧
   FileKit_init (U := renaming_uploads) (D := folders_of_files) photos_class
     "/tmp/photo.png" outside_photo
   = (outside_photo,
      Ok {| kit := photos_class; filename := "/tmp/photo.png" |})).
Proof. repeat split; reflexivity. Qed.

(** On the folder of a label the view [file_info] answers no 404: the
    constructor returns, and [to_dict] raises the ValueError of a name
    without a dot. *)
Lemma file_info_on_folder :
  file_info (U := renaming_uploads) (D := folders_of_files) photos_registry
    "photos" "thumb" stale_thumb
  = (stale_thumb, Raise ValueError).
Proof. reflexivity. Qed.

(** C4: generation does not overwrite the derivative on a backend that
    renames an upload whose name is taken, as Flask-Uploads does.
    Generating the thumbnail of [photo.png] while one is stored runs the
    chain, leaves the stored thumbnail as it is and puts the new output
    next to it, under [photo_1.jpg]: [BoundField.save] drops the name the
    backend returns.  A forced [process] does the same, a second one adds
    [photo_2.jpg], and [url] goes on answering with the address of the old
    file. *)
Theorem regeneration_keeps_old_derivative :
  let bf := getattr_field (photo_kit small_field) "thumb" small_field in
  let s1 := {| fs := <[ "/uploads/photos/thumb/photo_1.jpg" := [Byte.x01] ]>
                       (fs stale_thumb);
               calls := [0%nat] |} in
  let s2 := {| fs := <[ "/uploads/photos/thumb/photo_2.jpg" := [Byte.x01] ]>
                       (fs s1);
               calls := [0%nat; 0%nat] |} in
  BoundField_path (U := renaming_uploads) bf
    = Ok "/uploads/photos/thumb/photo.jpg" ∧
  fs stale_thumb !! "/uploads/photos/thumb/photo.jpg" = Some [Byte.x02] ∧
  BoundField_save (U := renaming_uploads) bf stale_thumb = (s1, Ok tt) ∧
  FileKit_process (U := renaming_uploads) (photo_kit small_field) true
    stale_thumb = (s1, Ok tt) ∧
  fs s1 !! "/uploads/photos/thumb/photo.jpg" = Some [Byte.x02] ∧
  FileKit_process (U := renaming_uploads) (photo_kit small_field) true s1
    = (s2, Ok tt) ∧
  fs s2 !! "/uploads/photos/thumb/photo.jpg" = Some [Byte.x02] ∧
  BoundField_url (U := renaming_uploads) (D := folders_of_files) bf s2
    = (s2, Ok "/_uploads/photos/thumb/photo.jpg").
Proof. repeat split; reflexivity. Qed.

Lemma no_dot_fails_witness :
  BoundField_url (U := replacing_uploads) (D := standing_dirs)
    (getattr_field readme_kit "thumb" small_field) one_photo
  = (one_photo, Raise ValueError).
Proof.
  exact (proj1 (proj2 (proj2
           (no_dot_fails (U := replacing_uploads) (D := standing_dirs)
              (getattr_field readme_kit "thumb" small_field) one_photo
              eq_refl)))).
Defined.

Lemma generate_reruns_chain_witness :
  let bf := getattr_field (photo_kit small_field) "thumb" small_field in
  let fs1 := <[ "/uploads/photos/thumb/photo.jpg" := [Byte.x01] ]>
               (fs stale_thumb) in
  BoundField_save (U := replacing_uploads) bf stale_thumb
    = ({| fs := fs1; calls := [0%nat] |}, Ok tt) ∧
  fs stale_thumb !! "/uploads/photos/thumb/photo.jpg" = Some [Byte.x02] ∧
  fs1 !! "/uploads/photos/thumb/photo.jpg" = Some [Byte.x01].
Proof.
  intros bf fs1.
  destruct (proj1 (generate_reruns_chain (U := replacing_uploads))
              bf stale_thumb [Byte.x01]
              {| f_name := Some "/uploads/photos/photo.png";
                 f_data := [Byte.x01] |}
              "photo.jpg" fs1 "thumb/photo.jpg"
              eq_refl eq_refl eq_refl eq_refl) as [Hgen Hfiles].
  split; [exact Hgen|]. split; [reflexivity|].
  exact (proj2 (Hfiles (directory_set_ok false "photos")) eq_refl).
Defined.

Lemma save_generates_eager_only_witness :
  let r := FileKit_save (U := replacing_uploads) (D := standing_dirs)
      gallery_class cat_upload
             (Some "cat.png") empty_disk in
  r.2 = Ok {| kit := gallery_class; filename := "cat.png" |} ∧
  calls r.1 = [0%nat; 0%nat] ∧
  is_Some (fs r.1 !! "/uploads/gallery/large/cat.png") ∧
  fs r.1 !! "/uploads/gallery/thumb/cat.jpg" = None.
Proof.
  intros r.
  destruct (save_generates_eager_only (U := replacing_uploads) (D := standing_dirs)
              gallery_class cat_upload (Some "cat.png") empty_disk r.1
              {| kit := gallery_class; filename := "cat.png" |}
              (directory_set_ok false "gallery") eq_refl)
    as (_ & Hcalls & Heager & _).
  split; [reflexivity|]. split; [exact Hcalls|].
  split; [|reflexivity].
  destruct (Heager "large" large_field eq_refl eq_refl) as (p & Hp & Hthere).
  injection Hp as <-. exact Hthere.
Defined.

(** * Further properties of the module *)

(** ** Resize *)

(** X1: with cropping on, whatever [Resize.process] returns has exactly the
    target size, for every source size and whatever the upscale flag says:
    the box is as wide and as high as the target. *)
Theorem resize_crop_exact (self : Resize) (img : Image) (out : Encoded) :
  crop self = true →
  Resize_process self img = Ok out →
  ∃ w h, width self = Some w ∧ height self = Some h ∧
         img_size (enc_image out) = (w, h).
Proof.
  intros Hcrop. unfold Resize_process.
  destruct (img_size _) as [cw ch]. rewrite Hcrop.
  unfold crop_plan, crop_table, py_add. munfold.
  intros Hout. repeat case_match; simplify_eq;
    eexists _, _; (split; [done|]); (split; [done|]); simpl; f_equal; lia.
Qed.

Lemma resize_crop_exact_witness :
  let self := {| width := Some 100; height := Some 100; crop := true;
                 upscale := false; quality := 80 |} in
  let img := {| img_mode := "L"; img_size := (50, 30) |} in
  let out := {| enc_image := {| img_mode := "RGB"; img_size := (100, 100) |};
                enc_format := "JPEG"; enc_quality := 80 |} in
  Resize_process self img = Ok out ∧
  ∃ w h, width self = Some w ∧ height self = Some h ∧
         img_size (enc_image out) = (w, h).
Proof.
  intros self img out. split; [reflexivity|].
  exact (resize_crop_exact self img out eq_refl eq_refl).
Defined.

(** X2: without cropping and with upscaling off, the result is never wider
    nor higher than the source. *)
Theorem resize_never_enlarges (self : Resize) (img : Image) (out : Encoded) :
  crop self = false →
  upscale self = false →
  Resize_process self img = Ok out →
  (img_size (enc_image out)).1 ≤ (img_size img).1 ∧
  (img_size (enc_image out)).2 ≤ (img_size img).2.
Proof.
  intros Hcrop Hup. unfold Resize_process.
  rewrite rgb_size, Hcrop, Hup.
  destruct (img_size img) as [cw ch] eqn:Hsize. munfold.
  destruct (new_dimensions self cw ch) as [[nw nh]|e]; [|done].
  simpl. rewrite andb_true_r.
  destruct ((cw <? nw) || (ch <? nh))%bool eqn:Hexceeds; intros [= <-]; simpl.
  - rewrite rgb_size, Hsize. simpl. lia.
  - apply orb_false_iff in Hexceeds as [Hw Hh].
    apply Z.ltb_ge in Hw, Hh. simpl. lia.
Qed.

Lemma resize_never_enlarges_witness :
  let self := {| width := Some 120; height := Some 120; crop := false;
                 upscale := false; quality := 80 |} in
  let img := {| img_mode := "RGB"; img_size := (333, 500) |} in
  let out := {| enc_image := {| img_mode := "RGB"; img_size := (80, 120) |};
                enc_format := "JPEG"; enc_quality := 80 |} in
  Resize_process self img = Ok out ∧
  (img_size (enc_image out)).1 ≤ (img_size img).1 ∧
  (img_size (enc_image out)).2 ≤ (img_size img).2.
Proof.
  intros self img out. split; [reflexivity|].
  exact (resize_never_enlarges self img out eq_refl eq_refl eq_refl).
Defined.

(** X3: whatever [Resize.process] returns is an RGB image encoded as JPEG
    at the quality of the processor, in every branch. *)
Theorem resize_output_format (self : Resize) (img : Image) (out : Encoded) :
  Resize_process self img = Ok out →
  img_mode (enc_image out) = "RGB" ∧
  enc_format out = "JPEG" ∧
  enc_quality out = quality self.
Proof.
  unfold Resize_process.
  set (rgb := if String.eqb (img_mode img) "RGB" then img else convert "RGB" img).
  assert (Hrgb : img_mode rgb = "RGB").
  { unfold rgb. destruct (String.eqb (img_mode img) "RGB") eqn:Hm; [|done].
    by apply String.eqb_eq. }
  destruct (img_size rgb) as [cw ch]. munfold.
  destruct (crop self).
  - destruct (crop_plan self cw ch) as [[[r sz] [[[x0 y0] x1] y1]]|e]; [|done].
    by intros [= <-].
  - destruct (new_dimensions self cw ch) as [dims|e]; [|done].
    destruct (_ && _)%bool; by intros [= <-].
Qed.

Lemma resize_output_format_witness :
  let self := {| width := Some 100; height := Some 100; crop := false;
                 upscale := true; quality := 80 |} in
  let img := {| img_mode := "CMYK"; img_size := (50, 30) |} in
  let out := {| enc_image := {| img_mode := "RGB"; img_size := (100, 60) |};
                enc_format := "JPEG"; enc_quality := 80 |} in
  Resize_process self img = Ok out ∧
  img_mode (enc_image out) = "RGB" ∧
  enc_format out = "JPEG" ∧
  enc_quality out = quality self.
Proof.
  intros self img out. split; [reflexivity|].
  exact (resize_output_format self img out eq_refl).
Defined.

(** X4: an image of width zero makes [Resize.process] raise
    ZeroDivisionError whenever a target width is set, with or without
    cropping; and without a target width, cropping raises TypeError. *)
Theorem resize_degenerate (self : Resize) (img : Image) :
  (∀ w x ch,
     width self = Some w → py_float (Some w) = Ok x →
     img_size img = (0, ch) →
     Resize_process self img = Raise ZeroDivisionError) ∧
  (width self = None → crop self = true →
   Resize_process self img = Raise TypeError) ∧
  (width self = None → height self = None →
   Resize_process self img = Raise TypeError).
Proof.
  assert (Hzero : ∀ x, py_div x 0 = Raise ZeroDivisionError) by reflexivity.
  assert (Hf0 : py_float (Some 0) = Ok 0%float) by reflexivity.
  repeat split.
  - intros w x ch Hw Hx Hsize. unfold Resize_process.
    rewrite rgb_size, Hsize.
    unfold crop_plan, new_dimensions, plain_ratio. rewrite Hw, Hx, Hf0.
    munfold. rewrite Hzero.
    destruct (crop self); [done|]. by destruct (height self).
  - intros Hw Hcrop. unfold Resize_process, crop_plan.
    rewrite Hcrop, Hw. by destruct (img_size _).
  - intros Hw Hh. unfold Resize_process, crop_plan, new_dimensions, plain_ratio.
    rewrite Hw, Hh. destruct (img_size _). by destruct (crop self).
Qed.

Lemma resize_degenerate_witness :
  Resize_process
    {| width := Some 100; height := None; crop := false; upscale := true;
       quality := 80 |}
    {| img_mode := "RGB"; img_size := (0, 10) |} = Raise ZeroDivisionError.
Proof.
  exact (proj1 (resize_degenerate
                  {| width := Some 100; height := None; crop := false;
                     upscale := true; quality := 80 |}
                  {| img_mode := "RGB"; img_size := (0, 10) |})
           100 100%float 10 eq_refl eq_refl eq_refl).
Defined.

(** ** Bound fields *)

Lemma chain_raise_split ps fp e :
  chain ps fp = Raise e →
  ∃ ps1 p ps2 fp',
    ps = ps1 ++ p :: ps2 ∧ chain ps1 fp = Ok fp' ∧ process p fp' = Raise e ∧
    reached ps fp = map proc_id (ps1 ++ [p]).
Proof.
  revert fp. induction ps as [|p ps IH]; intros fp; simpl; [done|].
  munfold. destruct (process p fp) as [fp1|e'] eqn:Hp.
  - intros Hrest.
    destruct (IH _ Hrest) as (ps1 & q & ps2 & fp' & -> & Hc & Hq & Hr).
    exists (p :: ps1), q, ps2, fp'. simpl. munfold.
    by rewrite Hp, Hr.
  - intros [= ->]. by exists [], p, ps, fp.
Qed.

Lemma rpartition_startswith s a b :
  rpartition "." s = Some (a, b) →
  startswith "/" s = true → startswith "/" a = true.
Proof.
  destruct s as [|d s]; simpl; [done|].
  destruct (rpartition "." s) as [[a' b']|].
  - by intros [= <- <-].
  - destruct (Ascii.eqb d ".") eqn:Hd; [|done].
    apply Ascii.eqb_eq in Hd as ->. done.
Qed.

Section BoundFields.
Context `{U : Uploads} `{D : Disk}.

(** X5: when the chain raises, it splits at its first failing processor:
    the processors before it have succeeded, it has raised the error on
    what they produced, and generation raises that error with exactly
    these processors called, once each and in order; the processors after
    the failing one are never called, and no file is written or
    changed. *)
Theorem generation_stops_at_failure (bf : BoundField) (s : State)
    (d : list Byte.byte) (e : exn) :
  fs s !! FileKit_path (fkit bf) = Some d →
  chain (processors (_field bf))
    {| f_name := Some (FileKit_path (fkit bf)); f_data := d |} = Raise e →
  ∃ ps1 p ps2 fp',
    processors (_field bf) = ps1 ++ p :: ps2 ∧
    chain ps1 {| f_name := Some (FileKit_path (fkit bf)); f_data := d |}
      = Ok fp' ∧
    process p fp' = Raise e ∧
    BoundField_save bf s =
      ({| fs := fs s; calls := calls s ++ map proc_id (ps1 ++ [p]) |}, Raise e).
Proof.
  intros Hsrc Hchain.
  destruct (chain_raise_split _ _ _ Hchain)
    as (ps1 & p & ps2 & fp' & Hps & Hbefore & Hfails & Hreached).
  exists ps1, p, ps2, fp'. split; [done|]. split; [done|]. split; [done|].
  unfold BoundField_save, py_open. munfold.
  by rewrite Hsrc, run_processors_spec, Hchain, Hreached.
Qed.

(** X6: once the source file is gone, generation raises IOError before any
    processor is called; [url] then raises IOError too when nothing exists
    at the derivative's path (no file, no directory), but still answers,
    without touching anything, when the derivative is stored. *)
Theorem source_gone (bf : BoundField) (s : State) (fname : string) :
  fs s !! FileKit_path (fkit bf) = None →
  BoundField_get_filename bf = Ok fname →
  BoundField_save bf s = (s, Raise IOError) ∧
  (fs s !! uset_path (uset bf) (os_path_join (folder bf) fname) = None →
   is_directory (fs s) (uset_path (uset bf) (os_path_join (folder bf) fname))
     = false →
   BoundField_url bf s = (s, Raise IOError)) ∧
  (is_Some (fs s !! uset_path (uset bf) (os_path_join (folder bf) fname)) →
   BoundField_url bf s =
     (s, Ok (uset_url (uset bf) (os_path_join (folder bf) fname)))).
Proof.
  intros Hgone Hname.
  assert (Hgen : BoundField_save bf s = (s, Raise IOError)).
  { unfold BoundField_save, py_open. munfold. by rewrite Hgone. }
  split; [done|]. split.
  - intros Habsent Hnodir.
    by rewrite (url_when_absent _ _ _ Hname Habsent Hnodir), Hgen.
  - intros Hthere. by apply url_when_present.
Qed.

(** X7: a source name that starts with a slash makes [os.path.join] drop
    the folder: the derivative's path is the backend's path of the derived
    filename alone, so that all fields with the same extension share one
    path. *)
Theorem absolute_name_drops_folder (bf : BoundField) (fname : string) :
  startswith "/" (filename (fkit bf)) = true →
  BoundField_get_filename bf = Ok fname →
  BoundField_path bf = Ok (uset_path (uset bf) fname) ∧
  ∀ label,
    BoundField_path (getattr_field (fkit bf) label (_field bf))
    = BoundField_path bf.
Proof.
  intros Habs Hname.
  assert (Hslash : startswith "/" fname = true).
  { unfold BoundField_get_filename, rsplit1 in Hname.
    destruct (rpartition "." (filename (fkit bf))) as [[a b]|] eqn:Hsplit;
      [|done].
    pose proof (rpartition_startswith _ _ _ Hsplit Habs) as Ha.
    destruct a as [|c a]; [done|]. simpl in Ha. munfold.
    repeat case_match; simplify_eq; done. }
  assert (Hjoin : ∀ label, os_path_join label fname = fname).
  { intros label. unfold os_path_join. by rewrite Hslash. }
  split.
  - unfold BoundField_path. rewrite Hname. munfold. by rewrite Hjoin.
  - intros label. unfold BoundField_path, BoundField_get_filename in *.
    simpl. destruct (rsplit1 "." (filename (fkit bf))) as [|? [|? [|? ?]]];
      try done.
    munfold. repeat case_match; simplify_eq; try done.
    all: by rewrite !Hjoin.
Qed.

(** X8: splitting a name at its last dot and joining the pieces gives the
    name back, so a field whose extension resolves to nothing (null or
    empty) derives the source's own filename. *)
Theorem derived_name_is_source_name (bf : BoundField) (e : option string) :
  contains "." (filename (fkit bf)) = true →
  Field_extension (_field bf) = Ok e →
  truthy e = false →
  BoundField_get_filename bf = Ok (filename (fkit bf)).
Proof.
  intros Hdot He Hfalse.
  destruct (contains_split _ _ Hdot) as (a & b & Hname & Hb).
  unfold BoundField_get_filename. rewrite Hname.
  rewrite (rsplit1_last _ _ _ Hb), He. munfold. by rewrite Hfalse.
Qed.

End BoundFields.

Lemma generation_stops_at_failure_witness :
  ∃ ps1 p ps2 fp',
    processors broken_field = ps1 ++ p :: ps2 ∧
    chain ps1 {| f_name := Some "/uploads/photos/photo.png";
                 f_data := [Byte.x01] |} = Ok fp' ∧
    process p fp' = Raise ProcessorError ∧
    BoundField_save (U := replacing_uploads)
      (getattr_field (photo_kit broken_field) "thumb" broken_field) one_photo =
      ({| fs := fs one_photo;
          calls := calls one_photo ++ map proc_id (ps1 ++ [p]) |},
       Raise ProcessorError).
Proof.
  exact (generation_stops_at_failure (U := replacing_uploads)
           (getattr_field (photo_kit broken_field) "thumb" broken_field)
           one_photo [Byte.x01] ProcessorError eq_refl eq_refl).
Defined.

Lemma source_gone_witness :
  BoundField_save (U := replacing_uploads)
    (getattr_field (photo_kit small_field) "thumb" small_field) empty_disk
  = (empty_disk, Raise IOError).
Proof.
  exact (proj1 (source_gone (U := replacing_uploads) (D := standing_dirs)
                  (getattr_field (photo_kit small_field) "thumb" small_field)
                  empty_disk "photo.jpg" eq_refl eq_refl)).
Defined.

Lemma absolute_name_drops_folder_witness :
  let k := {| kit := photos_class; filename := "/tmp/photo.png" |} in
  BoundField_path (U := replacing_uploads) (getattr_field k "thumb" small_field)
  = Ok "/tmp/photo.jpg".
Proof.
  exact (proj1 (absolute_name_drops_folder (U := replacing_uploads)
                  (getattr_field
                     {| kit := photos_class; filename := "/tmp/photo.png" |}
                     "thumb" small_field)
                  "/tmp/photo.jpg" eq_refl eq_refl)).
Defined.

Lemma derived_name_is_source_name_witness :
  BoundField_get_filename
    (getattr_field (photo_kit blank_ext_field) "thumb" blank_ext_field)
  = Ok "photo.png".
Proof.
  exact (derived_name_is_source_name
           (getattr_field (photo_kit blank_ext_field) "thumb" blank_ext_field)
           (Some "") eq_refl eq_refl eq_refl).
Defined.

(** ** Kit instances: [to_dict], [process] and [save] *)

Lemma directory_set_failure rename set st folder nm fs0 fs1 e :
  uset_save (directory_set rename set) st folder nm fs0 = (fs1, Raise e) →
  fs1 = fs0.
Proof.
  simpl. destruct nm as [n|]; [done|].
  destruct (fs_filename st); [done|]. by intros [= <-].
Qed.

Section KitInstances.
Context `{U : Uploads} `{D : Disk}.

(** What a [url] that returns has done, for a derivative whose path is
    never a directory. *)
Lemma BoundField_url_inv bf s s' u :
  UploadSet_ok (uset bf) →
  (∀ p files, BoundField_path bf = Ok p → is_directory files p = false) →
  BoundField_url bf s = (s', Ok u) →
  field_url bf = Some u ∧
  (∃ p, field_path bf = Some p ∧ is_Some (fs s' !! p)) ∧
  (∀ x, is_Some (fs s !! x) → is_Some (fs s' !! x)).
Proof.
  intros Hok Hnodir Hurl.
  unfold field_url, field_path, BoundField_path in *.
  destruct (BoundField_get_filename bf) as [fname|e] eqn:Hname.
  - munfold.
    destruct (fs s !! uset_path (uset bf) (os_path_join (folder bf) fname))
      as [old|] eqn:Hold.
    + rewrite (url_when_present _ _ _ Hname) in Hurl by (by rewrite Hold).
      injection Hurl as <- <-. split; [done|].
      split; [|done]. eexists. split; [done|]. by rewrite Hold.
    + rewrite (url_when_absent _ _ _ Hname Hold) in Hurl
        by (by apply Hnodir).
      destruct (BoundField_save bf s) as [s1 [[]|e]] eqn:Hgen; [|done].
      injection Hurl as <- <-. split; [done|].
      destruct (BoundField_save_effect _ _ _ Hok Hgen)
        as (out & fname' & stored & Hname' & _ & Hfs & Hthere).
      rewrite Hname in Hname'. injection Hname' as <-.
      split; [by eexists|].
      intros x Hx. rewrite Hfs. apply lookup_insert_is_Some'. by right.
  - unfold BoundField_url, BoundField_path in Hurl. rewrite Hname in Hurl.
    munfold. done.
Qed.

Lemma to_dict_fields_inv k l acc s s' d :
  UploadSet_ok (get_upload_set (kit k)) →
  (∀ label f p files, (label, f) ∈ l →
     BoundField_path (getattr_field k label f) = Ok p →
     is_directory files p = false) →
  NoDup l.*1 →
  to_dict_fields k l acc s = (s', Ok d) →
  (∀ x, is_Some (fs s !! x) → is_Some (fs s' !! x)) ∧
  (∀ label,
     d !! label =
     match (list_to_map l : gmap string Field) !! label with
     | Some f => field_url (getattr_field k label f)
     | None => acc !! label
     end) ∧
  (∀ label f, (label, f) ∈ l →
     is_Some (field_url (getattr_field k label f)) ∧
     ∃ p, field_path (getattr_field k label f) = Some p ∧
          is_Some (fs s' !! p)).
Proof.
  intros Hok. revert acc s.
  induction l as [|[lb f] l IH]; intros acc s Hnodir Hnd; simpl.
  - munfold. intros [= <- <-]. split; [done|]. split.
    + intros label. by rewrite lookup_empty.
    + intros ? ? Hin. by apply elem_of_nil in Hin.
  - munfold.
    destruct (BoundField_url (getattr_field k lb f) s) as [s1 [u|e]] eqn:Hurl;
      [|done].
    intros Hrest. apply NoDup_cons in Hnd as [Hfresh Hnd].
    assert (Hnodir' : ∀ label f' p files, (label, f') ∈ l →
              BoundField_path (getattr_field k label f') = Ok p →
              is_directory files p = false).
    { intros label f' p files Hin. apply Hnodir. by right. }
    destruct (IH _ _ Hnodir' Hnd Hrest) as (Hmono & Hlookup & Hfiles).
    assert (Hhere : ∀ p files,
              BoundField_path (getattr_field k lb f) = Ok p →
              is_directory files p = false).
    { intros p files. apply Hnodir. by left. }
    destruct (BoundField_url_inv (getattr_field k lb f) _ _ _ Hok Hhere Hurl)
      as (Hu & (p & Hp & Hthere) & Hmono1).
    split; [|split].
    + intros x Hx. by apply Hmono, Hmono1.
    + intros label. rewrite Hlookup.
      destruct (decide (label = lb)) as [->|Hne].
      * rewrite lookup_insert_eq.
        rewrite (not_elem_of_list_to_map_1 _ _ Hfresh).
        by rewrite lookup_insert_eq.
      * by rewrite !lookup_insert_ne.
    + intros label f' Hin. apply elem_of_cons in Hin as [[= -> ->]|Hin].
      * split; [by rewrite Hu|]. exists p. split; [done|]. by apply Hmono.
      * by apply (Hfiles _ _ Hin).
Qed.

Lemma to_dict_fields_cached k l acc s :
  (∀ label f, (label, f) ∈ l →
     ∃ p, field_path (getattr_field k label f) = Some p ∧ is_Some (fs s !! p)) →
  ∃ d, to_dict_fields k l acc s = (s, Ok d).
Proof.
  revert acc. induction l as [|[lb f] l IH]; intros acc Hall; simpl.
  - by eexists.
  - destruct (Hall lb f) as (p & Hp & Hthere); [by left|].
    unfold field_path, BoundField_path in Hp.
    destruct (BoundField_get_filename (getattr_field k lb f))
      as [fname|e] eqn:Hname; [|done].
    munfold. injection Hp as <-.
    rewrite (url_when_present _ _ _ Hname Hthere).
    apply IH. intros label f' Hin. apply Hall. by right.
Qed.

(** X9: a [to_dict] that returns has an entry for exactly the declared
    labels, each the backend's url of the field's derivative; every
    declared field then has a file at its derived path (lazy ones have
    been generated on the way), and no file has gone.  The derived paths
    are taken not to be directories: [url] generates nothing for a path
    that is one. *)
Theorem to_dict_complete (k : FileKit) (s s' : State) (d : gmap string string) :
  UploadSet_ok (get_upload_set (kit k)) →
  (∀ label f p files, fields (kit k) !! label = Some f →
     BoundField_path (getattr_field k label f) = Ok p →
     is_directory files p = false) →
  FileKit_to_dict k s = (s', Ok d) →
  (∀ label,
     d !! label =
     f ← fields (kit k) !! label; field_url (getattr_field k label f)) ∧
  dom d = dom (fields (kit k)) ∧
  (∀ label f, fields (kit k) !! label = Some f →
     ∃ p, BoundField_path (getattr_field k label f) = Ok p ∧
          is_Some (fs s' !! p)) ∧
  (∀ x, is_Some (fs s !! x) → is_Some (fs s' !! x)).
Proof.
  intros Hok Hnodir Hrun. unfold FileKit_to_dict in Hrun.
  assert (Hnodir' : ∀ label f p files,
            (label, f) ∈ map_to_list (fields (kit k)) →
            BoundField_path (getattr_field k label f) = Ok p →
            is_directory files p = false).
  { intros label f p files Hin. apply Hnodir. by apply elem_of_map_to_list. }
  destruct (to_dict_fields_inv _ _ _ _ _ _ Hok Hnodir'
              (NoDup_fst_map_to_list _) Hrun) as (Hmono & Hlookup & Hfiles).
  assert (Hd : ∀ label,
    d !! label =
    f ← fields (kit k) !! label; field_url (getattr_field k label f)).
  { intros label. rewrite Hlookup, list_to_map_to_list.
    destruct (fields (kit k) !! label); [done|]. by rewrite lookup_empty. }
  split; [done|]. split; [|split; [|done]].
  - apply set_eq. intros label. rewrite !elem_of_dom, Hd.
    destruct (fields (kit k) !! label) as [f|] eqn:Hf; simpl.
    + split; [by eauto|]. intros _.
      by apply (Hfiles label f), elem_of_map_to_list.
    + split; [by intros [? ?]|by intros [? ?]].
  - intros label f Hf. apply elem_of_map_to_list in Hf.
    destruct (Hfiles _ _ Hf) as (_ & p & Hp & Hthere).
    exists p. split; [|done]. unfold field_path in Hp.
    by destruct (BoundField_path _) as [p'|]; simplify_eq.
Qed.

(** X10: [to_dict] generates at most once: called again on the state it
    left, it returns the same dictionary and changes nothing (the derived
    paths being no directories). *)
Theorem to_dict_idempotent (k : FileKit) (s s' : State)
    (d : gmap string string) :
  UploadSet_ok (get_upload_set (kit k)) →
  (∀ label f p files, fields (kit k) !! label = Some f →
     BoundField_path (getattr_field k label f) = Ok p →
     is_directory files p = false) →
  FileKit_to_dict k s = (s', Ok d) →
  FileKit_to_dict k s' = (s', Ok d).
Proof.
  intros Hok Hnodir Hrun. unfold FileKit_to_dict in *.
  assert (Hnodir' : ∀ label f p files,
            (label, f) ∈ map_to_list (fields (kit k)) →
            BoundField_path (getattr_field k label f) = Ok p →
            is_directory files p = false).
  { intros label f p files Hin. apply Hnodir. by apply elem_of_map_to_list. }
  destruct (to_dict_fields_inv _ _ _ _ _ _ Hok Hnodir'
              (NoDup_fst_map_to_list _) Hrun) as (_ & Hlookup & Hfiles).
  destruct (to_dict_fields_cached k (map_to_list (fields (kit k))) ∅ s')
    as [d' Hagain].
  { intros label f Hin. by apply (Hfiles _ _ Hin). }
  rewrite Hagain. do 2 f_equal.
  destruct (to_dict_fields_inv _ _ _ _ _ _ Hok Hnodir'
              (NoDup_fst_map_to_list _) Hagain) as (_ & Hlookup' & _).
  apply map_eq. intros label. by rewrite Hlookup, Hlookup'.
Qed.

End KitInstances.

Section Saving.
Context `{U : Uploads} `{D : Disk}.

Lemma process_fields_lazy k l s :
  (∀ label f, (label, f) ∈ l → pre_cache f = false) →
  process_fields k false l s = (s, Ok tt).
Proof.
  induction l as [|[label f] l IH]; intros Hlazy; simpl; [done|].
  munfold. rewrite (Hlazy label f) by (by left). simpl.
  apply IH. intros label' f' Hin. apply (Hlazy label' f'). by right.
Qed.

(** [FileKit.save] once the backend has answered. *)
Lemma FileKit_save_stored cls storage suggested s fs1 stored :
  UploadSet_ok (get_upload_set cls) →
  uset_save (get_upload_set cls)
    (match storage with
     | Storage st => st
     | Stream fp => FileStorage_new fp suggested
     end) None suggested (fs s) = (fs1, Ok stored) →
  FileKit_save cls storage suggested s =
  match FileKit_process {| kit := cls; filename := stored |} false
          {| fs := fs1; calls := calls s |} with
  | (s', Ok _) => (s', Ok {| kit := cls; filename := stored |})
  | (s', Raise e) => (s', Raise e)
  end.
Proof.
  intros Hok Hstore.
  unfold FileKit_save, UploadSet_save, FileKit_init. munfold.
  rewrite Hstore. cbv beta iota zeta.
  rewrite os_path_exists_file.
  - by destruct (FileKit_process _ _ _) as [s' [[]|e]].
  - unfold FileKit_path. simpl.
    rewrite (save_stores _ Hok _ _ _ _ _ _ Hstore), lookup_insert_eq.
    by eexists.
Qed.

(** The files only grow during a pass, whatever its outcome, when a
    refused upload leaves the disk alone. *)
Lemma process_fields_keeps_files k force l s s' r :
  UploadSet_ok (get_upload_set (kit k)) →
  (∀ st folder nm fs0 fs1 e,
     uset_save (get_upload_set (kit k)) st folder nm fs0 = (fs1, Raise e) →
     fs1 = fs0) →
  process_fields k force l s = (s', r) →
  ∀ x, is_Some (fs s !! x) → is_Some (fs s' !! x).
Proof.
  intros Hok Hfail. revert s.
  induction l as [|[label f] l IH]; intros s; simpl.
  - munfold. by intros [= <- <-].
  - munfold. destruct (pre_cache f || force)%bool; [|by apply IH].
    destruct (BoundField_save _ s) as [s1 [[]|e]] eqn:Hgen.
    + intros Hrest x Hx. apply (IH _ Hrest).
      destruct (BoundField_save_effect (getattr_field k label f) _ _ Hok Hgen)
        as (out & fname & stored & _ & _ & Hfs & _).
      rewrite Hfs. apply lookup_insert_is_Some'. by right.
    + intros [= <- <-] x Hx.
      unfold BoundField_save, py_open, UploadSet_save in Hgen. munfold.
      destruct (fs s !! _) as [d|]; [|by simplify_eq].
      rewrite run_processors_spec in Hgen.
      destruct (chain _ _) as [out|e1]; [|by simplify_eq].
      destruct (BoundField_get_filename _) as [fname|e2]; [|by simplify_eq].
      simpl in Hgen.
      destruct (uset_save _ _ _ _ _) as [fs1 [stored|e3]] eqn:Hsave;
        [done|].
      apply Hfail in Hsave as ->. by simplify_eq.
Qed.

(** X11: under the backend's contract the existence check of the
    constructor cannot fail inside [FileKit.save]: once the backend has
    stored the upload, [save] is the unforced [process] of the instance
    for the stored name, and returns that instance or the error of the
    pass; when the backend refuses the upload, its error is raised and no
    processor is called. *)
Theorem save_is_store_then_process (cls : FileKitClass) (storage : upload)
    (suggested : option string) (s : State) :
  UploadSet_ok (get_upload_set cls) →
  let st := match storage with
            | Storage st => st
            | Stream fp => FileStorage_new fp suggested
            end in
  (∀ fs1 stored,
     uset_save (get_upload_set cls) st None suggested (fs s) = (fs1, Ok stored) →
     FileKit_save cls storage suggested s =
     match FileKit_process {| kit := cls; filename := stored |} false
             {| fs := fs1; calls := calls s |} with
     | (s', Ok _) => (s', Ok {| kit := cls; filename := stored |})
     | (s', Raise e) => (s', Raise e)
     end) ∧
  (∀ fs1 e,
     uset_save (get_upload_set cls) st None suggested (fs s) = (fs1, Raise e) →
     FileKit_save cls storage suggested s =
     ({| fs := fs1; calls := calls s |}, Raise e)).
Proof.
  intros Hok st. split.
  - intros fs1 stored Hstore. by apply FileKit_save_stored.
  - intros fs1 e Hstore. unfold FileKit_save, UploadSet_save. munfold.
    fold st. by rewrite Hstore.
Qed.

(** X12: for a kit without eager fields the unforced [process] does
    nothing, and [save] only stores the upload: no processor is called
    and no other file is written. *)
Theorem lazy_kit_save_only_stores (cls : FileKitClass) (storage : upload)
    (suggested : option string) (s : State)
    (fs1 : gmap string (list Byte.byte)) (stored : string) :
  UploadSet_ok (get_upload_set cls) →
  (∀ label f, fields cls !! label = Some f → pre_cache f = false) →
  uset_save (get_upload_set cls)
    (match storage with
     | Storage st => st
     | Stream fp => FileStorage_new fp suggested
     end) None suggested (fs s) = (fs1, Ok stored) →
  (∀ s0, FileKit_process {| kit := cls; filename := stored |} false s0
         = (s0, Ok tt)) ∧
  FileKit_save cls storage suggested s =
    ({| fs := fs1; calls := calls s |}, Ok {| kit := cls; filename := stored |}).
Proof.
  intros Hok Hlazy Hstore.
  assert (Hnoop : ∀ s0, FileKit_process {| kit := cls; filename := stored |}
                          false s0 = (s0, Ok tt)).
  { intros s0. apply process_fields_lazy. intros label f Hin.
    apply (Hlazy label). by apply elem_of_map_to_list. }
  split; [done|].
  by rewrite (FileKit_save_stored _ _ _ _ _ _ Hok Hstore), Hnoop.
Qed.

(** X13: [FileKit.save] does not roll back: when an eager field cannot be
    generated, [save] raises, returns no instance, and the source it has
    just stored stays on disk with everything that was there before
    (for a backend whose refused uploads leave the disk alone). *)
Theorem failed_save_keeps_source (cls : FileKitClass) (storage : upload)
    (suggested : option string) (s s' : State)
    (fs1 : gmap string (list Byte.byte)) (stored : string) (e : exn) :
  UploadSet_ok (get_upload_set cls) →
  (∀ st folder nm fs0 fs2 e',
     uset_save (get_upload_set cls) st folder nm fs0 = (fs2, Raise e') →
     fs2 = fs0) →
  uset_save (get_upload_set cls)
    (match storage with
     | Storage st => st
     | Stream fp => FileStorage_new fp suggested
     end) None suggested (fs s) = (fs1, Ok stored) →
  FileKit_save cls storage suggested s = (s', Raise e) →
  is_Some (fs s' !! FileKit_path {| kit := cls; filename := stored |}) ∧
  (∀ x, is_Some (fs s !! x) → is_Some (fs s' !! x)).
Proof.
  intros Hok Hfail Hstore Hsave.
  rewrite (FileKit_save_stored _ _ _ _ _ _ Hok Hstore) in Hsave.
  destruct (FileKit_process _ _ _) as [s2 [[]|e2]] eqn:Hproc; [done|].
  injection Hsave as <- <-.
  pose proof (process_fields_keeps_files
                {| kit := cls; filename := stored |} _ _ _ _ _
                Hok Hfail Hproc) as Hmono.
  pose proof (save_stores _ Hok _ _ _ _ _ _ Hstore) as Hfs1.
  simpl in Hmono. split.
  - apply Hmono. unfold FileKit_path. simpl.
    rewrite Hfs1, lookup_insert_eq. by eexists.
  - intros x Hx. apply Hmono. rewrite Hfs1.
    apply lookup_insert_is_Some'. by right.
Qed.

End Saving.

Lemma to_dict_complete_witness :
  let k := {| kit := gallery_class; filename := "photo.png" |} in
  let s := {| fs := {[ "/uploads/gallery/photo.png" := [Byte.x01] ]};
              calls := [] |} in
  let d : gmap string string :=
    {[ "thumb" := "/_uploads/gallery/thumb/photo.jpg";
       "large" := "/_uploads/gallery/large/photo.png" ]} in
  let s' := (FileKit_to_dict (U := replacing_uploads) (D := standing_dirs) k s).1 in
  FileKit_to_dict (U := replacing_uploads) (D := standing_dirs) k s = (s', Ok d) ∧
  dom d = dom (fields gallery_class) ∧
  is_Some (fs s' !! "/uploads/gallery/thumb/photo.jpg").
Proof.
  intros k s d s'. split; [reflexivity|].
  destruct (to_dict_complete (U := replacing_uploads) (D := standing_dirs) k s s' d
              (directory_set_ok false "gallery")
              (λ _ _ p files _, standing_dirs_no_derivative false _ p files)
              eq_refl)
    as (_ & Hdom & Hfiles & _).
  split; [exact Hdom|].
  destruct (Hfiles "thumb" small_field eq_refl) as (p & Hp & Hthere).
  injection Hp as <-. exact Hthere.
Defined.

Lemma to_dict_idempotent_witness :
  let k := {| kit := gallery_class; filename := "photo.png" |} in
  let s := {| fs := {[ "/uploads/gallery/photo.png" := [Byte.x01] ]};
              calls := [] |} in
  let d : gmap string string :=
    {[ "thumb" := "/_uploads/gallery/thumb/photo.jpg";
       "large" := "/_uploads/gallery/large/photo.png" ]} in
  let s' := (FileKit_to_dict (U := replacing_uploads) (D := standing_dirs) k s).1 in
  FileKit_to_dict (U := replacing_uploads) (D := standing_dirs) k s = (s', Ok d) ∧
  calls s' = [0%nat; 0%nat; 0%nat] ∧
  FileKit_to_dict (U := replacing_uploads) (D := standing_dirs) k s' = (s', Ok d).
Proof.
  intros k s d s'. split; [reflexivity|]. split; [reflexivity|].
  exact (to_dict_idempotent (U := replacing_uploads) (D := standing_dirs) k s s' d
           (directory_set_ok false "gallery")
           (λ _ _ p files _, standing_dirs_no_derivative false _ p files)
           eq_refl).
Defined.

Lemma save_is_store_then_process_witness :
  FileKit_save (U := replacing_uploads) (D := standing_dirs) gallery_class
    (Stream {| f_name := None; f_data := [Byte.x07] |}) None empty_disk
  = (empty_disk, Raise UploadNotAllowed).
Proof.
  exact (proj2 (save_is_store_then_process (U := replacing_uploads) (D := standing_dirs)
                  gallery_class
                  (Stream {| f_name := None; f_data := [Byte.x07] |}) None
                  empty_disk (directory_set_ok false "gallery"))
           ∅ UploadNotAllowed eq_refl).
Defined.

Lemma lazy_kit_save_only_stores_witness :
  FileKit_save (U := renaming_uploads) (D := standing_dirs)
      photos_class cat_upload None stale_thumb
  = ({| fs := <[ "/uploads/photos/cat.png" := [Byte.x07] ]> (fs stale_thumb);
        calls := [] |},
     Ok {| kit := photos_class; filename := "cat.png" |}).
Proof.
  refine (proj2 (lazy_kit_save_only_stores (U := renaming_uploads) (D := standing_dirs)
                   photos_class cat_upload None stale_thumb _ "cat.png"
                   (directory_set_ok true "photos") _ eq_refl)).
  intros label f Hf. change (fields photos_class) with
    ({["thumb" := small_field]} : gmap string Field) in Hf.
  apply lookup_singleton_Some in Hf as [_ <-]. reflexivity.
Defined.

Lemma failed_save_keeps_source_witness :
  let r := FileKit_save (U := replacing_uploads) (D := standing_dirs)
      broken_class cat_upload None
             empty_disk in
  r.2 = Raise ProcessorError ∧
  is_Some (fs r.1 !! "/uploads/broken/cat.png").
Proof.
  intros r. split; [reflexivity|].
  refine (proj1 (failed_save_keeps_source (U := replacing_uploads) (D := standing_dirs)
                   broken_class cat_upload None empty_disk r.1 _ "cat.png"
                   ProcessorError (directory_set_ok false "broken")
                   _ eq_refl eq_refl)).
  intros st folder nm fs0 fs2 e'. apply directory_set_failure.
Defined.

(** ** The metaclass and the registry *)

(** X14: the fields of a kit are the names its class body leaves bound to a
    [Field], except the name [fields] itself: a field declared under
    [fields] is dropped, and so is one whose name the body binds again to
    something that is no field. *)
Theorem metaclass_collects_fields (clsname : string)
    (body : list (string * attr)) :
  ∃ cls,
    define_kit clsname body = Ok cls ∧
    (∀ label f,
       fields cls !! label = Some f ↔
       label ≠ "fields" ∧ class_namespace body !! label = Some (AField f)) ∧
    fields cls !! "fields" = None ∧
    (∀ body1 body2 label v,
       body = body1 ++ (label, AValue v) :: body2 →
       label ∉ body2.*1 →
       fields cls !! label = None).
Proof.
  eexists. split; [reflexivity|]. simpl.
  assert (Hiff : ∀ label f,
    omap as_field (delete "fields" (class_namespace body)) !! label = Some f ↔
    label ≠ "fields" ∧ class_namespace body !! label = Some (AField f)).
  { intros label f. rewrite lookup_omap_Some. split.
    - intros ([g|v] & Hg & Hlk); simplify_eq/=.
      apply lookup_delete_Some in Hlk as [Hne Hlk]. by split.
    - intros [Hne Hlk]. exists (AField f). split; [done|].
      by rewrite lookup_delete_ne. }
  split; [done|]. split.
  - by rewrite lookup_omap, lookup_delete_eq.
  - intros body1 body2 label v -> Hlast.
    destruct (omap _ _ !! label) as [f|] eqn:Hf; [|done].
    apply Hiff in Hf as [_ Hf].
    by rewrite class_namespace_last in Hf.
Qed.

(** X15: the name of a kit is the string its class body leaves bound to
    [name]; when the body binds no [name], or binds it to a [Field] (which
    then is the field labelled [name]), it is the lowercased class name. *)
Theorem metaclass_names_kit (clsname : string) (body : list (string * attr)) :
  ∃ cls,
    define_kit clsname body = Ok cls ∧
    (∀ v, class_namespace body !! "name" = Some (AValue v) → name cls = v) ∧
    (class_namespace body !! "name" = None → name cls = lower clsname) ∧
    (∀ f, class_namespace body !! "name" = Some (AField f) →
          name cls = lower clsname ∧ fields cls !! "name" = Some f).
Proof.
  eexists. split; [reflexivity|]. simpl.
  set (rest := filter (λ kv : string * attr, as_field kv.2 = None)
                 (delete "fields" (class_namespace body))).
  split; [|split].
  - intros v Hv.
    assert (Hrest : rest !! "name" = Some (AValue v)).
    { apply map_lookup_filter_Some. split; [|done].
      by rewrite lookup_delete_ne. }
    by rewrite Hrest.
  - intros Hnone.
    assert (Hrest : rest !! "name" = None).
    { apply map_lookup_filter_None. left. by rewrite lookup_delete_ne. }
    by rewrite Hrest.
  - intros f Hf. split.
    + assert (Hrest : rest !! "name" = None).
      { apply map_lookup_filter_None. right. intros x Hx.
        rewrite lookup_delete_ne in Hx by done.
        rewrite Hf in Hx. by injection Hx as <-. }
      by rewrite Hrest.
    + rewrite lookup_omap, lookup_delete_ne by done. by rewrite Hf.
Qed.

(** X16: configuring one kit registers the module and enters the kit in
    the registry under its name, in place of a kit registered under that
    name before; other registrations and modules stay, and the upload set
    of the kit is handed to [configure_uploads]. *)
Theorem configure_registers_kit (app : App) (cls : FileKitClass) :
  ∃ app' reg,
    configure_filekits app (OneKit cls) = (app', Ok tt) ∧
    filekits app' = Some reg ∧
    reg !! name cls = Some cls ∧
    (∀ n, n ≠ name cls → reg !! n = default ∅ (filekits app) !! n) ∧
    "_filekits" ∈ modules app' ∧
    modules app ⊆ modules app' ∧
    upload_sets app' = upload_sets app ++ [name cls].
Proof.
  unfold configure_filekits. simpl.
  case_bool_decide as Hmod; simpl; eexists _, _;
    (split; [reflexivity|]); (split; [reflexivity|]);
    (split; [apply lookup_insert_eq|]);
    (split; [intros n Hn; by rewrite lookup_insert_ne|]);
    repeat split; try done; set_solver.
Qed.

(** X17: configuring the same kit a second time changes neither the
    registry nor the modules; only its upload set is handed over again. *)
Theorem configure_twice (app : App) (cls : FileKitClass) :
  let app1 := (configure_filekits app (OneKit cls)).1 in
  let app2 := (configure_filekits app1 (OneKit cls)).1 in
  filekits app2 = filekits app1 ∧
  modules app2 = modules app1 ∧
  upload_sets app2 = upload_sets app1 ++ [name cls].
Proof.
  unfold configure_filekits. simpl.
  destruct (decide ("_filekits" ∈ modules app)) as [Hin|Hnotin].
  - repeat (rewrite (bool_decide_eq_true_2 _ Hin); simpl).
    by rewrite insert_insert_eq.
  - repeat (rewrite (bool_decide_eq_false_2 _ Hnotin); simpl).
    rewrite bool_decide_eq_true_2 by set_solver. simpl.
    by rewrite insert_insert_eq.
Qed.

(** ** The views *)

Section ViewProperties.
Context `{U : Uploads} `{D : Disk}.




(** X18: [file_info] answers 404 in exactly two cases, and then it has
    touched nothing: no kit is registered under the label, or nothing
    exists at the path of the named file (no file is stored there and it
    is no directory), so that the constructor raises FileNotFound, which
    never leaves the view. *)
Theorem file_info_not_found (registry : gmap string FileKitClass)
    (label filename : string) (s s' : State) :
  file_info registry label filename s = (s', Ok (Abort 404)) ↔
  s' = s ∧
  (registry !! label = None ∨
   ∃ cls, registry !! label = Some cls ∧
          fs s !! FileKit_path {| kit := cls; filename := filename |} = None ∧
          is_directory (fs s)
            (FileKit_path {| kit := cls; filename := filename |}) = false).
Proof.
  unfold file_info.
  destruct (registry !! label) as [cls|] eqn:Hreg.
  - unfold FileKit_init, os_path_exists. munfold.
    destruct (fs s !! FileKit_path {| kit := cls; filename := filename |})
      as [bytes|] eqn:Hfile;
      [|destruct (is_directory (fs s)
                    (FileKit_path {| kit := cls; filename := filename |}))
          eqn:Hdir].
    + rewrite bool_decide_eq_true_2 by by eexists. simpl. split.
      * by destruct (FileKit_to_dict _ s) as [s1 [d|e]].
      * intros [_ [?|(cls' & ? & ? & _)]]; simplify_eq.
    + rewrite orb_true_r. split.
      * by destruct (FileKit_to_dict _ s) as [s1 [d|e]].
      * intros [_ [?|(cls' & ? & _ & ?)]]; simplify_eq; congruence.
    + rewrite bool_decide_eq_false_2 by by intros [? ?]. simpl. split.
      * intros [= <-]. split; [done|]. right. by exists cls.
      * by intros [-> _].
  - split.
    + intros [= <-]. split; [done|]. by left.
    + by intros [-> _].
Qed.

(** X19: for a stored file of a registered kit, [file_info] is [to_dict]
    of the instance: the answer lists the url of every declared field,
    and every field has its derivative stored by the time the view
    returns (the derived paths being no directories). *)
Theorem file_info_found (registry : gmap string FileKitClass)
    (label filename : string) (cls : FileKitClass) (s s' : State)
    (r : response) :
  UploadSet_ok (get_upload_set cls) →
  (∀ field f p files, fields cls !! field = Some f →
     BoundField_path
       (getattr_field {| kit := cls; filename := filename |} field f) = Ok p →
     is_directory files p = false) →
  registry !! label = Some cls →
  is_Some (fs s !! FileKit_path {| kit := cls; filename := filename |}) →
  file_info registry label filename s = (s', Ok r) →
  ∃ d, r = Json d ∧
       FileKit_to_dict {| kit := cls; filename := filename |} s = (s', Ok d) ∧
       ∀ field f, fields cls !! field = Some f →
         d !! field
           = field_url (getattr_field {| kit := cls; filename := filename |}
                          field f) ∧
         ∃ p, BoundField_path
                (getattr_field {| kit := cls; filename := filename |} field f)
              = Ok p ∧ is_Some (fs s' !! p).
Proof.
  intros Hok Hnodir Hreg Hthere.
  unfold file_info, FileKit_init, os_path_exists.
  rewrite Hreg. munfold. rewrite bool_decide_eq_true_2 by done. simpl.
  destruct (FileKit_to_dict _ s) as [s1 [d|e]] eqn:Hdict; [|done].
  intros [= <- <-]. exists d. split; [done|]. split; [done|].
  unfold FileKit_to_dict in Hdict.
  assert (Hnodir' : ∀ field f p files,
            (field, f) ∈ map_to_list (fields cls) →
            BoundField_path
              (getattr_field {| kit := cls; filename := filename |} field f)
            = Ok p →
            is_directory files p = false).
  { intros field f p files Hin. apply Hnodir. by apply elem_of_map_to_list. }
  destruct (to_dict_fields_inv _ _ _ _ _ _ Hok Hnodir'
              (NoDup_fst_map_to_list _) Hdict) as (_ & Hlookup & Hfiles).
  intros field f Hf. simpl in *. split.
  - by rewrite Hlookup, list_to_map_to_list, Hf.
  - apply elem_of_map_to_list in Hf.
    destruct (Hfiles _ _ Hf) as (_ & p & Hp & Hp').
    exists p. split; [|done]. unfold field_path in Hp.
    by destruct (BoundField_path _); simplify_eq.
Qed.

(** X20: a stored file whose name has no dot is no 404: for a kit with at
    least one field the view raises the ValueError of the derived
    filename, having generated nothing. *)
Theorem file_info_no_dot (registry : gmap string FileKitClass)
    (label filename : string) (cls : FileKitClass) (s : State) :
  registry !! label = Some cls →
  is_Some (fs s !! FileKit_path {| kit := cls; filename := filename |}) →
  contains "." filename = false →
  fields cls ≠ ∅ →
  file_info registry label filename s = (s, Raise ValueError).
Proof.
  intros Hreg Hthere Hdot Hfields.
  unfold file_info, FileKit_init, os_path_exists.
  rewrite Hreg. munfold. rewrite bool_decide_eq_true_2 by done.
  unfold FileKit_to_dict. simpl.
  destruct (map_to_list (fields cls)) as [|[field f] l] eqn:Hl.
  { by apply map_to_list_empty_iff in Hl. }
  simpl. munfold.
  unfold BoundField_url, BoundField_path, BoundField_get_filename. simpl.
  by rewrite (rsplit1_no_sep _ _ Hdot).
Qed.


End ViewProperties.

Lemma file_info_not_found_witness :
  file_info (U := replacing_uploads) (D := standing_dirs)
      gallery_registry "gallery" "dog.png"
    one_photo
  = (one_photo, Ok (Abort 404)).
Proof.
  apply (file_info_not_found (U := replacing_uploads) (D := standing_dirs)
           gallery_registry "gallery" "dog.png" one_photo one_photo).
  split; [reflexivity|].
  right. exists gallery_class. repeat split; reflexivity.
Defined.

Lemma file_info_found_witness :
  let s := {| fs := {[ "/uploads/gallery/photo.png" := [Byte.x01] ]};
              calls := [] |} in
  let d : gmap string string :=
    {[ "thumb" := "/_uploads/gallery/thumb/photo.jpg";
       "large" := "/_uploads/gallery/large/photo.png" ]} in
  let s' := (file_info (U := replacing_uploads) (D := standing_dirs)
      gallery_registry "gallery"
               "photo.png" s).1 in
  file_info (U := replacing_uploads) (D := standing_dirs)
      gallery_registry "gallery" "photo.png" s
    = (s', Ok (Json d)) ∧
  is_Some (fs s' !! "/uploads/gallery/thumb/photo.jpg").
Proof.
  intros s d s'. split; [reflexivity|].
  destruct (file_info_found (U := replacing_uploads) (D := standing_dirs)
      gallery_registry
              "gallery" "photo.png" gallery_class s s' (Json d)
              (directory_set_ok false "gallery")
              (λ _ _ p files _, standing_dirs_no_derivative false _ p files)
              eq_refl (ex_intro _ [Byte.x01] eq_refl) eq_refl)
    as (d' & _ & _ & Hfields).
  destruct (Hfields "thumb" small_field eq_refl) as (_ & p & Hp & Hthere).
  injection Hp as <-. exact Hthere.
Defined.

Lemma file_info_no_dot_witness :
  let s := {| fs := {[ "/uploads/gallery/README" := [Byte.x01] ]};
              calls := [] |} in
  file_info (U := replacing_uploads) (D := standing_dirs)
      gallery_registry "gallery" "README" s
  = (s, Raise ValueError).
Proof.
  intros s.
  refine (file_info_no_dot (U := replacing_uploads) (D := standing_dirs)
      gallery_registry
            "gallery" "README" gallery_class s eq_refl
            (ex_intro _ [Byte.x01] eq_refl) eq_refl _).
  intros Hempty.
  assert (Hthumb : fields gallery_class !! "thumb" = Some small_field)
    by reflexivity.
  rewrite Hempty in Hthumb. discriminate Hthumb.
Defined.


(** ** How the operations compose *)

Section Composition.
Context `{U : Uploads} `{D : Disk}.

(** X22: after a forced [process] that returned, nothing is left to
    generate: [to_dict], and so every [url], answers from the state as it
    is, calling no processor and writing no file. *)
Theorem process_then_to_dict (k : FileKit) (s s' : State) :
  UploadSet_ok (get_upload_set (kit k)) →
  FileKit_process k true s = (s', Ok tt) →
  (∃ d, FileKit_to_dict k s' = (s', Ok d)) ∧
  ∀ label f, fields (kit k) !! label = Some f →
    ∃ u, BoundField_url (getattr_field k label f) s' = (s', Ok u).
Proof.
  intros Hok Hrun. unfold FileKit_process in Hrun.
  destruct (process_fields_files _ _ _ _ _ Hok Hrun) as (_ & Hgenerated & _).
  split.
  - apply to_dict_fields_cached. intros label f Hin.
    destruct (Hgenerated label f Hin (orb_true_r _)) as (p & Hp & Hthere).
    exists p. unfold field_path. by rewrite Hp.
  - intros label f Hf. apply elem_of_map_to_list in Hf.
    destruct (Hgenerated label f Hf (orb_true_r _)) as (p & Hp & Hthere).
    unfold BoundField_path in Hp.
    destruct (BoundField_get_filename (getattr_field k label f))
      as [fname|e] eqn:Hname; [|done].
    munfold. injection Hp as <-. eexists.
    by apply url_when_present.
Qed.

(** X23: after [FileKit.save] the url of an eager field is answered
    without generating again: the state stays as [save] left it. *)
Theorem eager_url_after_save (cls : FileKitClass) (storage : upload)
    (suggested : option string) (s s' : State) (inst : FileKit)
    (label : string) (f : Field) :
  UploadSet_ok (get_upload_set cls) →
  FileKit_save cls storage suggested s = (s', Ok inst) →
  fields cls !! label = Some f →
  pre_cache f = true →
  ∃ u, field_url (getattr_field inst label f) = Some u ∧
       BoundField_url (getattr_field inst label f) s' = (s', Ok u).
Proof.
  intros Hok Hsave Hf Heager.
  destruct (uset_save (get_upload_set cls)
              (match storage with
               | Storage st => st
               | Stream fp => FileStorage_new fp suggested
               end) None suggested (fs s)) as [fs1 [stored|e]] eqn:Hstore.
  - rewrite (FileKit_save_stored _ _ _ _ _ _ Hok Hstore) in Hsave.
    destruct (FileKit_process _ _ _) as [s2 [[]|e2]] eqn:Hproc; [|done].
    injection Hsave as <- <-.
    destruct (process_fields_files
                {| kit := cls; filename := stored |} _ _ _ _ Hok Hproc)
      as (_ & Hgenerated & _).
    destruct (Hgenerated label f) as (p & Hp & Hthere).
    { by apply elem_of_map_to_list. }
    { by rewrite Heager. }
    unfold BoundField_path in Hp. unfold field_url.
    destruct (BoundField_get_filename _) as [fname|e] eqn:Hname; [|done].
    munfold. injection Hp as <-. eexists. split; [done|].
    by apply url_when_present.
  - unfold FileKit_save, UploadSet_save in Hsave. munfold.
    by rewrite Hstore in Hsave.
Qed.

End Composition.

Lemma chain_app ps1 ps2 fp :
  chain (ps1 ++ ps2) fp = (fp1 ← chain ps1 fp; chain ps2 fp1).
Proof.
  revert fp. induction ps1 as [|p ps1 IH]; intros fp; simpl; [done|].
  munfold. destruct (process p fp) as [fp'|e]; [|done]. apply IH.
Qed.

(** X24: a chain is the composition of its processors in order, so that
    appending the base [Processor] changes nothing in what is generated;
    but it is then the last processor, it declares no extension, and a
    field without explicit extension falls back to the extension of the
    source whatever the processors before it declare. *)
Theorem base_processor_last (ps : list Processor) (i : nat) (pc : bool)
    (fp : pyfile) :
  chain (ps ++ [Processor_base i]) fp = chain ps fp ∧
  Field_extension
    {| processors := ps ++ [Processor_base i]; ext := None; pre_cache := pc |}
  = Ok None ∧
  ∀ k label stem src_ext,
    filename k = stem +:+ "." +:+ src_ext →
    contains "." src_ext = false →
    BoundField_get_filename
      (getattr_field k label
         {| processors := ps ++ [Processor_base i]; ext := None;
            pre_cache := pc |})
    = Ok (filename k).
Proof.
  assert (Hext : Field_extension
            {| processors := ps ++ [Processor_base i]; ext := None;
               pre_cache := pc |} = Ok None).
  { unfold Field_extension. simpl. by rewrite last_snoc. }
  split; [|split; [done|]].
  - rewrite chain_app. munfold. by destruct (chain ps fp).
  - intros k label stem src_ext Hname Hsrc.
    unfold BoundField_get_filename. simpl. rewrite Hext, Hname.
    change (stem +:+ "." +:+ src_ext) with (stem +:+ String "." src_ext).
    by rewrite (rsplit1_last _ _ _ Hsrc).
Qed.

Lemma process_then_to_dict_witness :
  let k := {| kit := gallery_class; filename := "photo.png" |} in
  let s := {| fs := {[ "/uploads/gallery/photo.png" := [Byte.x01] ]};
              calls := [] |} in
  let s' := (FileKit_process (U := replacing_uploads) k true s).1 in
  FileKit_process (U := replacing_uploads) k true s = (s', Ok tt) ∧
  calls s' = [0%nat; 0%nat; 0%nat] ∧
  ∃ d, FileKit_to_dict (U := replacing_uploads) (D := standing_dirs) k s' = (s', Ok d).
Proof.
  intros k s s'. split; [reflexivity|]. split; [reflexivity|].
  exact (proj1 (process_then_to_dict (U := replacing_uploads) (D := standing_dirs)
      k s s'
                  (directory_set_ok false "gallery") eq_refl)).
Defined.

Lemma eager_url_after_save_witness :
  let r := FileKit_save (U := replacing_uploads) (D := standing_dirs)
      gallery_class cat_upload
             (Some "cat.png") empty_disk in
  let inst := {| kit := gallery_class; filename := "cat.png" |} in
  r = (r.1, Ok inst) ∧
  ∃ u, field_url (U := replacing_uploads)
         (getattr_field inst "large" large_field) = Some u ∧
       BoundField_url (U := replacing_uploads) (D := standing_dirs)
         (getattr_field inst "large" large_field) r.1 = (r.1, Ok u).
Proof.
  intros r inst. split; [reflexivity|].
  exact (eager_url_after_save (U := replacing_uploads) (D := standing_dirs)
      gallery_class
           cat_upload (Some "cat.png") empty_disk r.1 inst "large" large_field
           (directory_set_ok false "gallery") eq_refl eq_refl eq_refl).
Defined.

Lemma base_processor_last_witness :
  BoundField_get_filename
    (getattr_field {| kit := photos_class; filename := "photo.png" |} "thumb"
       {| processors := [Resize_processor (λ _, Raise IOError) (λ _, [])
                           1 {| width := Some 10; height := Some 10;
                                crop := true; upscale := false;
                                quality := 80 |}]
                        ++ [Processor_base 2];
          ext := None; pre_cache := false |})
  = Ok "photo.png".
Proof.
  exact (proj2 (proj2 (base_processor_last _ 2 false
                         {| f_name := None; f_data := [] |}))
           {| kit := photos_class; filename := "photo.png" |} "thumb"
           "photo" "png" eq_refl eq_refl).
Defined.
